(** * The transaction admission pipeline of app/v1/auth/ante.go

    A shallow embedding of the ante handler: account-number and sequence
    validation, public-key resolution, signature-verification gas,
    fee deduction, the mempool fee check, the gas-meter construction and
    the out-of-gas recovery boundary, followed by the properties the
    specification states about them. *)

From Stdlib Require Import ZArith String Ascii List QArith Lia.
From Stdlib.Strings Require Import Byte.
From stdpp Require Import base option list gmap strings pretty.

Set Warnings "-register-all".

Local Open Scope string_scope.
Local Open Scope Z_scope.

(** ** Bytes and addresses *)

#[global] Instance byte_eq_dec : EqDecision byte.
Proof.
  intros a b. destruct (decide (Byte.to_N a = Byte.to_N b)) as [e | n].
  - left. apply (f_equal Byte.of_N) in e. rewrite !Byte.of_to_N in e. congruence.
  - right. congruence.
Defined.

#[global] Instance byte_countable : Countable byte :=
  inj_countable Byte.to_N Byte.of_N Byte.of_to_N.

(** [[]byte] *)
Abbreviation bytes := (list byte).

(** [sdk.AccAddress] is a byte slice. *)
Abbreviation AccAddress := (list byte).

(** ** Unsigned 64-bit arithmetic

    [AccountNumber], [Sequence] and [Gas] are [uint64]; a value is a [Z] in
    [0, 2^64) and addition wraps around. *)

Definition uint64_modulus : Z := 2 ^ 64.

Definition wrap64 (z : Z) : Z := z mod uint64_modulus.

(** ** Strings: the helpers of [strings] and [fmt] that the handler uses *)

(** [strings.ToLower] on ASCII letters. *)
Definition lower_ascii (c : ascii) : ascii :=
  let n := nat_of_ascii c in
  if ((65 <=? n)%nat && (n <=? 90)%nat)%bool then ascii_of_nat (n + 32) else c.

Fixpoint ToLower (s : string) : string :=
  match s with
  | EmptyString => EmptyString
  | String c s' => String (lower_ascii c) (ToLower s')
  end.

(** [strings.Contains s substr]. *)
Fixpoint Contains (s substr : string) : bool :=
  if String.prefix substr s then true
  else match s with
       | EmptyString => false
       | String _ s' => Contains s' substr
       end.

(** [%d] of an unsigned integer. *)
Definition fmt_d (z : Z) : string := pretty z.

(** [%q] of a string without quotes or escapes in it. *)
Definition fmt_q (s : string) : string :=
  let quote := String (ascii_of_nat 34) EmptyString in
  quote +:+ s +:+ quote.

(** ** Results and error kinds (sdk.Result, sdk.Error) *)

Inductive CodeType : Type :=
| CodeOK
| CodeInternal
| CodeUnauthorized
| CodeInsufficientFunds
| CodeInvalidSequence
| CodeInvalidPubKey
| CodeUnknownAddress
| CodeOutOfGas
| CodeInsufficientFee
| CodeOther (n : Z).

#[global] Instance CodeType_eq_dec : EqDecision CodeType.
Proof. solve_decision. Defined.

(** [sdk.Result]; [Log] holds the error message. *)
Record Result : Type := mkResult {
  Code : CodeType;
  Log : string;
  GasWanted : Z;
  GasUsed : Z
}.

(** [sdk.Result{}] *)
Definition okResult : Result := mkResult CodeOK "" 0 0.

Definition IsOK (r : Result) : bool := bool_decide (Code r = CodeOK).

(** [sdk.ErrXxx(msg).Result()] *)
Definition errResult (c : CodeType) (msg : string) : Result := mkResult c msg 0 0.

Definition ErrInternal := errResult CodeInternal.
Definition ErrUnauthorized := errResult CodeUnauthorized.
Definition ErrInsufficientFunds := errResult CodeInsufficientFunds.
Definition ErrInvalidSequence := errResult CodeInvalidSequence.
Definition ErrInvalidPubKey := errResult CodeInvalidPubKey.
Definition ErrUnknownAddress := errResult CodeUnknownAddress.
Definition ErrOutOfGas := errResult CodeOutOfGas.
Definition ErrInsufficientFee := errResult CodeInsufficientFee.

(** ** Panics and the state-and-panic monad

    A Go call either returns or unwinds with a panic value; both leave a
    state behind (the gas meter keeps what was consumed before the unwind). *)

Inductive PanicValue : Type :=
| ErrorOutOfGas (Descriptor : string)   (* sdk.ErrorOutOfGas *)
| RuntimeError (msg : string)           (* index out of range, failed type assertion *)
| ErrorValue (msg : string).            (* panic(err), the Must... helpers *)

Inductive Outcome (S A : Type) : Type :=
| Ret (a : A) (s : S)
| Panic (p : PanicValue) (s : S).

Arguments Ret {S A} a s.
Arguments Panic {S A} p s.

Definition M (S A : Type) : Type := S -> Outcome S A.

Definition ret {S A} (a : A) : M S A := fun s => Ret a s.

Definition panic {S A} (p : PanicValue) : M S A := fun s => Panic p s.

Definition bind {S A B} (m : M S A) (k : A -> M S B) : M S B :=
  fun s => match m s with
           | Ret a s' => k a s'
           | Panic p s' => Panic p s'
           end.

Notation "'do' x <- m ; k" := (bind m (fun x => k))
  (at level 10, x name, m at level 100, k at level 200).
Notation "'do' ' p <- m ; k" := (bind m (fun x => match x with p => k end))
  (at level 10, p pattern, m at level 100, k at level 200).
Notation "'run' m ; k" := (bind m (fun _ => k))
  (at level 10, m at level 100, k at level 200).

(** [l[i]]: a slice index, which panics when out of range. *)
Definition index {S A} (l : list A) (i : nat) : M S A :=
  fun s => match l !! i with
           | Some x => Ret x s
           | None => Panic (RuntimeError "index out of range") s
           end.

(** ** Public keys (crypto.PubKey)

    The interface has three implementations in the crypto library; any
    other implementing type is [PubKeyOther], known by its type name. *)

Inductive PubKey : Type :=
| PubKeyEd25519 (bz : bytes)
| PubKeySecp256k1 (bz : bytes)
| PubKeyMultisigThreshold (K : Z) (PubKeys : list PubKey)
| PubKeyOther (typeName : string) (bz : bytes).

(** [fmt.Sprintf("%T", pubkey)] *)
Definition typeOf (pubkey : PubKey) : string :=
  match pubkey with
  | PubKeyEd25519 _ => "ed25519.PubKeyEd25519"
  | PubKeySecp256k1 _ => "secp256k1.PubKeySecp256k1"
  | PubKeyMultisigThreshold _ _ => "multisig.PubKeyMultisigThreshold"
  | PubKeyOther n _ => n
  end.

(** [multisig.Multisignature]: the inclusion bitmap and the partial
    signatures of the members whose bit is set. *)
Record Multisignature : Type := mkMultisignature {
  BitArray : list bool;
  Sigs : list bytes
}.

(** [BitArray.Size()] and [BitArray.GetIndex(i)] *)
Definition Size (b : list bool) : nat := length b.
Definition GetIndex (b : list bool) (i : nat) : bool := default false (b !! i).

(** ** Coins

    Modelled from the spec: [sdk.Coins] and its operations [IsZero],
    [SafeSub] and [IsAllGTE] are declared outside the excerpt. A coin set
    maps a denomination to an amount; an absent denomination holds 0. *)

Abbreviation Coins := (gmap string Z).

Definition AmountOf (c : Coins) (denom : string) : Z := default 0 (c !! denom).

(** Modelled from the spec: [Coins.IsZero], no denomination has an amount. *)
Definition IsZero (c : Coins) : bool :=
  bool_decide (map_Forall (fun _ v => v = 0) c).

(** Modelled from the spec: per-denomination difference, zero entries dropped. *)
Definition coinsDiff (a b : Coins) : Coins :=
  merge (fun x y =>
           match x, y with
           | None, None => None
           | _, _ => let v := default 0 x - default 0 y in
                     if decide (v = 0) then None else Some v
           end) a b.

Definition IsAnyNegative (c : Coins) : bool :=
  bool_decide (map_Exists (fun _ v => v < 0) c).

(** Modelled from the spec: [Coins.SafeSub], the difference and whether some
    denomination went negative. *)
Definition SafeSub (a b : Coins) : Coins * bool :=
  let diff := coinsDiff a b in (diff, IsAnyNegative diff).

(** Modelled from the spec: [Coins.IsAllGTE], at least the floor in every
    denomination. *)
Definition IsAllGTE (a b : Coins) : bool := negb (snd (SafeSub a b)).

(** Modelled from the spec: [Coins.Plus], used by the fee collector. *)
Definition coinsPlus (a b : Coins) : Coins :=
  merge (fun x y =>
           match x, y with
           | None, None => None
           | _, _ => let v := default 0 x + default 0 y in
                     if decide (v = 0) then None else Some v
           end) a b.

(** ** Accounts, signatures, fees, transactions *)

(** Modelled from the spec: the [Account] interface is declared outside the
    excerpt; an account has an address, an optional public key, coins, an
    account number and a sequence. Its setters never fail. *)
Record Account : Type := mkAccount {
  GetAddress : AccAddress;
  GetPubKey : option PubKey;
  GetCoins : Coins;
  GetAccountNumber : Z;
  GetSequence : Z
}.

Definition SetPubKey (acc : Account) (pk : option PubKey) : Account :=
  mkAccount (GetAddress acc) pk (GetCoins acc) (GetAccountNumber acc) (GetSequence acc).

Definition SetCoins (acc : Account) (c : Coins) : Account :=
  mkAccount (GetAddress acc) (GetPubKey acc) c (GetAccountNumber acc) (GetSequence acc).

Definition SetSequence (acc : Account) (seq : Z) : Account :=
  mkAccount (GetAddress acc) (GetPubKey acc) (GetCoins acc) (GetAccountNumber acc) seq.

(** [StdSignature] *)
Record StdSignature : Type := mkStdSignature {
  SigPubKey : option PubKey;
  Signature : bytes;
  AccountNumber : Z;
  Sequence : Z
}.

(** [StdFee] *)
Record StdFee : Type := mkStdFee {
  Amount : Coins;
  Gas : Z
}.

(** ** The gas meter

    Modelled from the spec: [sdk.GasMeter] and its constructors are declared
    outside the excerpt. A meter counts the gas consumed; the infinite meter
    never aborts, the bounded one raises the out-of-gas signal when the
    effective consumption exceeds its limit. The effective consumption is
    the raw amount up to the shift and [log(gas)/log(base)] beyond it. *)

Inductive MeterKind : Type :=
| Infinite
| WithBase (limit : Z) (base : Q) (shift : Z).

Record GasMeter : Type := mkGasMeter {
  kind : MeterKind;
  consumed : Z
}.

Definition NewInfiniteGasMeter : GasMeter := mkGasMeter Infinite 0.

Definition NewGasMeterWithBase (limit : Z) (base : Q) (shift : Z) : GasMeter :=
  mkGasMeter (WithBase limit base shift) 0.

Definition GasConsumed (m : GasMeter) : Z := consumed m.

(** [sdk.Context]; the gas meter it points to is kept as a value. *)
Record Context : Type := mkContext {
  ChainID : string;
  BlockHeight : Z;
  IsCheckTx : bool;
  MinimumFees : Coins;
  CtxGasMeter : option GasMeter;
  Signers : list Account
}.

(** The zero value of [sdk.Context]. *)
Definition zeroContext : Context := mkContext "" 0 false ∅ None [].

Definition WithGasMeter (ctx : Context) (m : GasMeter) : Context :=
  mkContext (ChainID ctx) (BlockHeight ctx) (IsCheckTx ctx) (MinimumFees ctx)
            (Some m) (Signers ctx).

Definition WithSigners (ctx : Context) (accs : list Account) : Context :=
  mkContext (ChainID ctx) (BlockHeight ctx) (IsCheckTx ctx) (MinimumFees ctx)
            (CtxGasMeter ctx) accs.

(** ** Constants of ante.go *)

Definition ed25519VerifyCost : Z := 59.
Definition secp256k1VerifyCost : Z := 100.
Definition gasBase : Q := 102 # 100.
Definition gasShift : Z := 285.

(** [dummySecp256k1Pubkey], the 33 bytes decoded by [init]. *)
Definition dummySecp256k1Pubkey : PubKey :=
  PubKeySecp256k1
    [x03; x5a; xd6; x81; x0a; x47; xf0; x73; x55; x3f; xf3; x0d; x2f; xcc;
     x7e; x0d; x3b; x1c; x0b; x74; xb6; x1a; x1a; xaa; x25; x82; x34; x40;
     x37; x15; x1e; x14; x3a].

(** [setGasMeter] (ante.go, lines 304-311) *)
Definition setGasMeter (simulate : bool) (ctx : Context) (gasLimit : Z) : Context :=
  if simulate || (BlockHeight ctx =? 0) then
    WithGasMeter ctx NewInfiniteGasMeter
  else
    WithGasMeter ctx (NewGasMeterWithBase gasLimit gasBase gasShift).

(** [validateAccNumAndSequence] (ante.go, lines 133-156): one iteration of
    the loop; [Some r] is an early [return r]. *)
Definition validateSigner {S} (ctx : Context) (accs : list Account)
    (sigs : list StdSignature) (i : nat) : M S (option Result) :=
  do r1 <- (if BlockHeight ctx =? 0 then
              do sig <- index sigs i;
              ret (if negb (AccountNumber sig =? 0) then
                     Some (ErrInvalidSequence
                       ("Invalid account number for BlockHeight == 0. Got "
                          +:+ fmt_d (AccountNumber sig) +:+ ", expected 0"))
                   else None)
            else ret None);
  match r1 with
  | Some r => ret (Some r)
  | None =>
    do acc <- index accs i;
    let accnum := GetAccountNumber acc in
    do r2 <- (if negb (BlockHeight ctx =? 0) then
                do sig <- index sigs i;
                ret (if negb (accnum =? AccountNumber sig) then
                       Some (ErrInvalidSequence
                         ("Invalid account number. Got " +:+ fmt_d (AccountNumber sig)
                            +:+ ", expected " +:+ fmt_d accnum))
                     else None)
              else ret None);
    match r2 with
    | Some r => ret (Some r)
    | None =>
      let seq := GetSequence acc in
      do sig <- index sigs i;
      ret (if negb (seq =? Sequence sig) then
             Some (ErrInvalidSequence
               ("Invalid sequence. Got " +:+ fmt_d (Sequence sig)
                  +:+ ", expected " +:+ fmt_d seq))
           else None)
    end
  end.

(** The loop [for i := 0; i < len(accs); i+:+], with [n] iterations left. *)
Fixpoint validateFrom {S} (ctx : Context) (accs : list Account)
    (sigs : list StdSignature) (n i : nat) : M S Result :=
  match n with
  | O => ret okResult
  | Datatypes.S n' =>
    do r <- validateSigner ctx accs sigs i;
    match r with
    | Some res => ret res
    | None => validateFrom ctx accs sigs n' (Datatypes.S i)
    end
  end.

Definition validateAccNumAndSequence {S} (ctx : Context) (accs : list Account)
    (sigs : list StdSignature) : M S Result :=
  validateFrom ctx accs sigs (length accs) 0.

(** ** The collaborators outside the excerpt

    The codec, the signature scheme, the address derivation, the message
    set and the printing of addresses and coins are taken as parameters. *)

(** [StdTx] *)
Record StdTx (Msg : Type) : Type := mkStdTx {
  Msgs : list Msg;
  Fee : StdFee;
  Signatures : list StdSignature;
  Memo : string
}.

Arguments mkStdTx {Msg} _ _ _ _.
Arguments Msgs {Msg} _.
Arguments Fee {Msg} _.
Arguments Signatures {Msg} _.
Arguments Memo {Msg} _.

(** [sdk.Tx]: a [StdTx] or some other implementation. *)
Inductive Tx (Msg : Type) : Type :=
| TxStd (stdTx : StdTx Msg)
| TxOther.

Arguments TxStd {Msg} _.
Arguments TxOther {Msg}.

Class Collaborators : Type := {
  Msg : Type;
  (* the meter's log(gas)/log(base) *)
  gasLog : Q -> Z -> Z;
  (* codec.Cdc.UnmarshalBinaryBare into a Multisignature; None is an error *)
  unmarshalMultisignature : bytes -> option Multisignature;
  (* pubKey.VerifyBytes(msg, sig) *)
  VerifyBytes : PubKey -> bytes -> bytes -> bool;
  (* pubKey.Address() *)
  Address : PubKey -> AccAddress;
  (* the printing of an address and of coins *)
  addrString : AccAddress -> string;
  coinsString : Coins -> string;
  (* tx.ValidateBasic(): None is nil, Some r is err.Result() *)
  ValidateBasic : StdTx Msg -> option Result;
  (* stdTx.GetSigners() *)
  GetSigners : StdTx Msg -> list AccAddress;
  StdSignBytes : string -> Z -> Z -> StdFee -> list Msg -> string -> bytes
}.

Section Ante.

Context {E : Collaborators}.

(** Modelled from the spec: the effective consumption a bounded meter
    compares with its limit. *)
Definition effectiveGas (m : GasMeter) : Z :=
  match kind m with
  | Infinite => consumed m
  | WithBase _ base shift =>
    if consumed m <=? shift then consumed m else gasLog base (consumed m)
  end.

(** Modelled from the spec: [GasMeter.ConsumeGas]. *)
Definition ConsumeGas (amount : Z) (descriptor : string) : M GasMeter unit :=
  fun m =>
    let m' := mkGasMeter (kind m) (consumed m + amount) in
    match kind m with
    | Infinite => Ret tt m'
    | WithBase limit _ _ =>
      if limit <? effectiveGas m' then Panic (ErrorOutOfGas descriptor) m'
      else Ret tt m'
    end.

(** [codec.Cdc.MustUnmarshalBinaryBare(sig, &multisignature)] *)
Definition MustUnmarshalBinaryBare (sig : bytes) : M GasMeter Multisignature :=
  match unmarshalMultisignature sig with
  | Some ms => ret ms
  | None => panic (ErrorValue "UnmarshalBinaryBare")
  end.

(** The loop of [consumeMultisignatureVerificationGas] (ante.go, lines
    252-259) with [n] iterations left; [charge !! i] is the call
    [consumeSignatureVerificationGas(meter, _, pubkey.PubKeys[i])], whose
    result is dropped. *)
Fixpoint multisigLoop (charge : list (bytes -> M GasMeter Result))
    (sig : Multisignature) (n i sigIndex : nat) : M GasMeter unit :=
  match n with
  | O => ret tt
  | S n' =>
    if GetIndex (BitArray sig) i then
      do s <- index (Sigs sig) sigIndex;
      do f <- index charge i;
      run f s;
      multisigLoop charge sig n' (S i) (S sigIndex)
    else multisigLoop charge sig n' (S i) sigIndex
  end.

(** [consumeSignatureVerificationGas] (ante.go, lines 223-247) *)
Fixpoint consumeSignatureVerificationGas (sig : bytes) (pubkey : PubKey)
    {struct pubkey} : M GasMeter Result :=
  let pubkeyType := ToLower (typeOf pubkey) in
  if Contains pubkeyType "ed25519" then
    run ConsumeGas ed25519VerifyCost "ante verify: ed25519";
    ret okResult
  else if Contains pubkeyType "secp256k1" then
    run ConsumeGas secp256k1VerifyCost "ante verify: secp256k1";
    ret okResult
  else if Contains pubkeyType "multisigthreshold" then
    do multisignature <- MustUnmarshalBinaryBare sig;
    match pubkey with
    | PubKeyMultisigThreshold _ PubKeys =>
      (* consumeMultisignatureVerificationGas(meter, multisignature, multisigPubKey) *)
      run multisigLoop
            (map (fun pk s => consumeSignatureVerificationGas s pk) PubKeys)
            multisignature (Size (BitArray multisignature)) 0 0;
      ret okResult
    | _ => panic (RuntimeError "interface conversion")
    end
  else
    ret (ErrInvalidPubKey ("unrecognized public key type: " +:+ pubkeyType)).

(** [consumeMultisignatureVerificationGas] (ante.go, lines 249-260); the
    multisig key is given by its member keys. *)
Definition consumeMultisignatureVerificationGas (sig : Multisignature)
    (PubKeys : list PubKey) : M GasMeter unit :=
  multisigLoop (map (fun pk s => consumeSignatureVerificationGas s pk) PubKeys)
               sig (Size (BitArray sig)) 0 0.

(** [processPubKey] (ante.go, lines 196-221): [inl pk] is the return of
    [pk] with an OK result, [inr res] the return of [nil] with an error. *)
Definition processPubKey (acc : Account) (sig : StdSignature) (simulate : bool)
    : PubKey + Result :=
  let pubKey := GetPubKey acc in
  if simulate then
    match pubKey with
    | None => inl dummySecp256k1Pubkey
    | Some pk => inl pk
    end
  else
    match pubKey with
    | None =>
      match SigPubKey sig with
      | None => inr (ErrInvalidPubKey "PubKey not found")
      | Some pk =>
        if negb (bool_decide (Address pk = GetAddress acc)) then
          inr (ErrInvalidPubKey
                 ("PubKey does not match Signer address " +:+ addrString (GetAddress acc)))
        else inl pk
      end
    | Some pk => inl pk
    end.

(** [processSig] (ante.go, lines 160-187). The account is mutated in place:
    the result is the account object after the call, the returned account
    ([None] is [nil]) and the result. The setters of the account model
    return no error, so the branches on their errors are left out. *)
Definition processSig (acc : Account) (sig : StdSignature) (signBytes : bytes)
    (simulate : bool) : M GasMeter (Account * option Account * Result) :=
  match processPubKey acc sig simulate with
  | inr res => ret (acc, None, res)
  | inl pubKey =>
    let acc1 := SetPubKey acc (Some pubKey) in
    do res <- consumeSignatureVerificationGas (Signature sig) pubKey;
    if negb (IsOK res) then ret (acc1, None, res)
    else if negb simulate && negb (VerifyBytes pubKey signBytes (Signature sig)) then
      ret (acc1, None, ErrUnauthorized "signature verification failed")
    else
      let acc2 := SetSequence acc1 (wrap64 (GetSequence acc1 + 1)) in
      ret (acc2, Some acc2, okResult)
  end.

(** [deductFees] (ante.go, lines 265-282). The result is the account object
    after the call, the returned account ([None] is [nil]) and the result;
    [SetCoins] returns no error in the account model. *)
Definition deductFees (acc : Account) (fee : StdFee)
    : Account * option Account * Result :=
  let coins := GetCoins acc in
  let feeAmount := Amount fee in
  let '(newCoins, hasNeg) := SafeSub coins feeAmount in
  if hasNeg then
    let errMsg := "account balance [" +:+ coinsString coins
                    +:+ "] is not enough to cover fee [" +:+ coinsString feeAmount +:+ "]" in
    (acc, None, ErrInsufficientFunds errMsg)
  else
    let acc' := SetCoins acc newCoins in
    (acc', Some acc', okResult).

(** [ensureSufficientMempoolFees] (ante.go, lines 284-302) *)
Definition ensureSufficientMempoolFees (ctx : Context) (stdTx : StdTx Msg) : Result :=
  if Gas (Fee stdTx) <=? 0 then
    ErrInternal ("invalid gas supplied: " +:+ fmt_d (Gas (Fee stdTx)))
  else if negb (IsZero (MinimumFees ctx))
          && negb (IsAllGTE (Amount (Fee stdTx)) (MinimumFees ctx)) then
    ErrInsufficientFee
      ("insufficient fee, got: " +:+ fmt_q (coinsString (Amount (Fee stdTx)))
         +:+ " required: " +:+ fmt_q (coinsString (MinimumFees ctx)))
  else okResult.

(** [getSignBytesList] (ante.go, lines 313-321) *)
Definition getSignBytesList (chainID : string) (stdTx : StdTx Msg)
    (stdSigs : list StdSignature) : list bytes :=
  map (fun sig => StdSignBytes chainID (AccountNumber sig) (Sequence sig)
                    (Fee stdTx) (Msgs stdTx) (Memo stdTx)) stdSigs.

(** ** The account keeper and the fee keeper

    Modelled from the spec: the account accessor loads and stores accounts
    by address, the fee collector accumulates the collected fees.
    [meter] is the gas meter object that the handler's [newCtx] points to;
    the handler installs it before any use. *)
Record State : Type := mkState {
  meter : GasMeter;
  accounts : gmap AccAddress Account;
  collectedFees : Coins
}.

Definition GetAccount (addr : AccAddress) : M State (option Account) :=
  fun s => Ret (accounts s !! addr) s.

Definition SetAccount (acc : Account) : M State unit :=
  fun s => Ret tt (mkState (meter s) (<[GetAddress acc := acc]> (accounts s))
                           (collectedFees s)).

Definition AddCollectedFees (amount : Coins) : M State unit :=
  fun s => Ret tt (mkState (meter s) (accounts s)
                           (coinsPlus (collectedFees s) amount)).

(** A computation on the gas meter of the context, run in the full state. *)
Definition onMeter {A} (m : M GasMeter A) : M State A :=
  fun s => match m (meter s) with
           | Ret a g => Ret a (mkState g (accounts s) (collectedFees s))
           | Panic p g => Panic p (mkState g (accounts s) (collectedFees s))
           end.

(** [getSignerAccs] (ante.go, lines 122-131) *)
Fixpoint getSignerAccs (addrs : list AccAddress) : M State (list Account * Result) :=
  match addrs with
  | [] => ret ([], okResult)
  | addr :: addrs' =>
    do a <- GetAccount addr;
    match a with
    | None => ret ([], ErrUnknownAddress (addrString addr))
    | Some acc =>
      do '(accs, res) <- getSignerAccs addrs';
      if IsOK res then ret (acc :: accs, res) else ret ([], res)
    end
  end.

(** The fee stage of the handler (ante.go, lines 93-101): [inr res] is the
    early return, [inl signerAccs] the signer accounts to continue with. *)
Definition deductFeeStage (stdTx : StdTx Msg) (signerAccs : list Account)
    : M State (list Account + Result) :=
  if negb (IsZero (Amount (Fee stdTx))) then
    do acc0 <- index signerAccs 0;
    let '(obj, _, res) := deductFees acc0 (Fee stdTx) in
    if negb (IsOK res) then ret (inr res)
    else
      run AddCollectedFees (Amount (Fee stdTx));
      ret (inl (<[0%nat := obj]> signerAccs))
  else ret (inl signerAccs).

(** The signature loop of the handler (ante.go, lines 103-112), with [n]
    iterations left. *)
Fixpoint processSigs (stdSigs : list StdSignature) (signBytesList : list bytes)
    (simulate : bool) (signerAccs : list Account) (n i : nat)
    : M State (list Account + Result) :=
  match n with
  | O => ret (inl signerAccs)
  | S n' =>
    do acc <- index signerAccs i;
    do sig <- index stdSigs i;
    do signBytes <- index signBytesList i;
    do '(obj, _, res) <- onMeter (processSig acc sig signBytes simulate);
    if negb (IsOK res) then ret (inr res)
    else
      run SetAccount obj;
      processSigs stdSigs signBytesList simulate (<[i := obj]> signerAccs) n' (S i)
  end.

(** The handler after its [defer] (ante.go, lines 73-118). *)
Definition anteBody (ctx newCtx : Context) (stdTx : StdTx Msg) (simulate : bool)
    : M State (Context * Result * bool) :=
  match ValidateBasic stdTx with
  | Some errRes => ret (newCtx, errRes, true)
  | None =>
    let stdSigs := Signatures stdTx in
    let signerAddrs := GetSigners stdTx in
    let signBytesList := getSignBytesList (ChainID newCtx) stdTx stdSigs in
    do '(signerAccs, res) <- getSignerAccs signerAddrs;
    if negb (IsOK res) then ret (newCtx, res, true)
    else
      do res <- validateAccNumAndSequence ctx signerAccs stdSigs;
      if negb (IsOK res) then ret (newCtx, res, true)
      else
        do r <- deductFeeStage stdTx signerAccs;
        match r with
        | inr res => ret (newCtx, res, true)
        | inl signerAccs =>
          do r <- processSigs stdSigs signBytesList simulate signerAccs
                    (length stdSigs) 0;
          match r with
          | inr res => ret (newCtx, res, true)
          | inl signerAccs =>
            ret (WithSigners newCtx signerAccs,
                 mkResult CodeOK "" (Gas (Fee stdTx)) 0, false)
          end
        end
  end.

(** The deferred function (ante.go, lines 58-71): what the handler yields
    from the outcome of its body. The context handed back points to the
    installed meter, read here in its final state. *)
Definition recoverOutOfGas (stdTx : StdTx Msg) (newCtx : Context)
    (o : Outcome State (Context * Result * bool))
    : Outcome State (Context * Result * bool) :=
  match o with
  | Ret (c, res, abort) s => Ret (WithGasMeter c (meter s), res, abort) s
  | Panic (ErrorOutOfGas descriptor) s =>
    let log := "out of gas in location: " +:+ descriptor in
    let res := mkResult CodeOutOfGas log (Gas (Fee stdTx)) (GasConsumed (meter s)) in
    Ret (WithGasMeter newCtx (meter s), res, true) s
  | Panic r s => Panic r s
  end.

(** The handler from the installation of the gas meter on (ante.go, lines
    52-118): the body runs under the deferred recovery. *)
Definition meteredAnte (ctx : Context) (stdTx : StdTx Msg) (simulate : bool)
    : M State (Context * Result * bool) :=
  fun s =>
    let newCtx := setGasMeter simulate ctx (Gas (Fee stdTx)) in
    match CtxGasMeter newCtx with
    | None => Panic (RuntimeError "nil pointer dereference") s
    | Some m =>
      recoverOutOfGas stdTx newCtx
        (anteBody ctx newCtx stdTx simulate
           (mkState m (accounts s) (collectedFees s)))
    end.

(** [NewAnteHandler] (ante.go, lines 29-120) *)
Definition NewAnteHandler (ctx : Context) (tx : Tx Msg) (simulate : bool)
    : M State (Context * Result * bool) :=
  fun s =>
    match tx with
    | TxOther =>
      let newCtx := setGasMeter simulate ctx 0 in
      Ret (newCtx, ErrInternal "tx must be StdTx", true) s
    | TxStd stdTx =>
      if IsCheckTx ctx && negb simulate then
        let res := ensureSufficientMempoolFees ctx stdTx in
        if negb (IsOK res) then Ret (zeroContext, res, true) s
        else meteredAnte ctx stdTx simulate s
      else meteredAnte ctx stdTx simulate s
    end.

End Ante.

(** ** Notions used by the statements *)

(** The account number a signer must claim: 0 at genesis height, the stored
    one at any other height. *)
Definition expectedAccountNumber (ctx : Context) (acc : Account) : Z :=
  if BlockHeight ctx =? 0 then 0 else GetAccountNumber acc.

(** A signer's claims agree with the stored account. *)
Definition conforms (ctx : Context) (acc : Account) (sig : StdSignature) : Prop :=
  AccountNumber sig = expectedAccountNumber ctx acc
  /\ Sequence sig = GetSequence acc.

(** The message of a signer's first failing check, with the claimed (got)
    and the expected value. *)
Definition violationLog (ctx : Context) (acc : Account) (sig : StdSignature) : string :=
  if bool_decide (AccountNumber sig = expectedAccountNumber ctx acc) then
    "Invalid sequence. Got " +:+ fmt_d (Sequence sig)
      +:+ ", expected " +:+ fmt_d (GetSequence acc)
  else if BlockHeight ctx =? 0 then
    "Invalid account number for BlockHeight == 0. Got "
      +:+ fmt_d (AccountNumber sig) +:+ ", expected 0"
  else
    "Invalid account number. Got " +:+ fmt_d (AccountNumber sig)
      +:+ ", expected " +:+ fmt_d (GetAccountNumber acc).

#[global] Instance conforms_dec ctx acc sig : Decision (conforms ctx acc sig).
Proof. unfold conforms. apply _. Defined.

(** ** A stand-in for the collaborators, for the examples

    A message is its signer's address, a public key's address is its bytes,
    a signature verifies when it equals the sign bytes, and the codec reads
    a bitmap length, the bitmap, then length-prefixed partial signatures. *)
Module Demo.

Definition logStandIn (base : Q) (gas : Z) : Z := 35 * Z.log2 gas.

Fixpoint splitSigs (fuel : nat) (bz : bytes) : option (list bytes) :=
  match fuel with
  | O => match bz with [] => Some [] | _ => None end
  | S fuel' =>
    match bz with
    | [] => Some []
    | len :: rest =>
      let n := N.to_nat (Byte.to_N len) in
      if (length rest <? n)%nat then None
      else option_map (cons (take n rest)) (splitSigs fuel' (drop n rest))
    end
  end.

Definition decode (bz : bytes) : option Multisignature :=
  match bz with
  | [] => None
  | nbits :: rest =>
    let n := N.to_nat (Byte.to_N nbits) in
    if (length rest <? n)%nat then None
    else
      let bits := map (fun b => negb (bool_decide (b = x00))) (take n rest) in
      option_map (mkMultisignature bits) (splitSigs (length rest) (drop n rest))
  end.

Definition verify (pk : PubKey) (msg sig : bytes) : bool :=
  bool_decide (sig = msg).

Definition address (pk : PubKey) : AccAddress :=
  match pk with
  | PubKeyEd25519 bz => bz
  | PubKeySecp256k1 bz => bz
  | PubKeyMultisigThreshold _ _ => [xff]
  | PubKeyOther _ bz => bz
  end.

Definition printAddr (addr : AccAddress) : string :=
  String.string_of_list_byte addr.

Definition printCoins (c : Coins) : string :=
  foldr (fun '(d, v) acc => fmt_d v +:+ d +:+ " " +:+ acc) "" (map_to_list c).

Definition validate (stdTx : StdTx AccAddress) : option Result := None.

Definition signers (stdTx : StdTx AccAddress) : list AccAddress := Msgs stdTx.

Definition signBytes (chainID : string) (accnum seq : Z) (fee : StdFee)
    (msgs : list AccAddress) (memo : string) : bytes :=
  String.list_byte_of_string (chainID +:+ "/" +:+ fmt_d accnum +:+ "/" +:+ fmt_d seq).

Definition collaborators : Collaborators := {|
  Msg := AccAddress;
  gasLog := logStandIn;
  unmarshalMultisignature := decode;
  VerifyBytes := verify;
  Address := address;
  addrString := printAddr;
  coinsString := printCoins;
  ValidateBasic := validate;
  GetSigners := signers;
  StdSignBytes := signBytes
|}.

End Demo.

(** ** Example data: account A of the spec's scenario (sequence 3, balance
    100) signing a transaction with fee 10 *)
Module Example.

#[local] Existing Instance Demo.collaborators.

Definition keyA : PubKey := PubKeySecp256k1 [x01].

Definition addrA : AccAddress := [x01].

Definition accountA : Account :=
  mkAccount addrA (Some keyA) {[ "iris" := 100 ]} 7 3.

Definition ctx : Context := mkContext "irishub" 10 false ∅ None [].

Definition fee (gas : Z) : StdFee := mkStdFee {[ "iris" := 10 ]} gas.

Definition sigA (gas : Z) : StdSignature :=
  mkStdSignature None (Demo.signBytes "irishub" 7 3 (fee gas) [addrA] "") 7 3.

(** The transaction, by its declared gas limit. *)
Definition txA (gas : Z) : StdTx AccAddress :=
  mkStdTx [addrA] (fee gas) [sigA gas] "".

(** The same messages with no signature entry. *)
Definition txUnsigned : StdTx AccAddress :=
  mkStdTx [addrA] (fee 50000) [] "".

Definition state : State :=
  mkState NewInfiniteGasMeter {[ addrA := accountA ]} ∅.

(** What the handler hands back for the transaction with gas limit 50000,
    and the state it leaves. *)
Definition firstRun : Outcome State (Context * Result * bool) :=
  NewAnteHandler ctx (TxStd (txA 50000)) false state.

Definition afterFirstRun : State :=
  match firstRun with Ret _ s => s | Panic _ s => s end.

Definition firstContext : Context :=
  match firstRun with Ret (c, _, _) _ => c | Panic _ _ => zeroContext end.

(** The state an out-of-gas unwind leaves: the fee is collected, the
    account store is as before. *)
Definition outOfGasState : State :=
  mkState (mkGasMeter (WithBase 50 gasBase gasShift) 100)
          {[ addrA := accountA ]} {[ "iris" := 10 ]}.

(** Account B of the spec's scenario: stored sequence 4, claimed 5. *)
Definition accountB : Account := mkAccount [x02] None ∅ 8 4.

Definition sigB : StdSignature := mkStdSignature None [] 8 5.

(** A 2-of-3 multisig account and signatures with bitmap 101. *)
Definition memberKeys : list PubKey :=
  [PubKeySecp256k1 [x0a]; PubKeySecp256k1 [x0b]; PubKeySecp256k1 [x0c]].

Definition keyM : PubKey := PubKeyMultisigThreshold 2 memberKeys.

Definition addrM : AccAddress := [xff].

Definition accountM : Account := mkAccount addrM (Some keyM) ∅ 8 0.

Definition bitmap101 (sigs : list bytes) : Multisignature :=
  mkMultisignature [true; false; true] sigs.

(** The encodings of bitmap 101 with one, two and three partial
    signatures. *)
Definition encoded101_1 : bytes := [x03; x01; x00; x01; x01; xaa].
Definition encoded101_2 : bytes := [x03; x01; x00; x01; x01; xaa; x01; xbb].
Definition encoded101_3 : bytes :=
  [x03; x01; x00; x01; x01; xaa; x01; xbb; x01; xcc].

Definition sigM (bz : bytes) : StdSignature := mkStdSignature None bz 8 0.

Definition txM (bz : bytes) : StdTx AccAddress :=
  mkStdTx [addrM] (mkStdFee ∅ 50000) [sigM bz] "".

Definition stateM : State :=
  mkState NewInfiniteGasMeter {[ addrM := accountM ]} ∅.

(** An account whose stored key is of a type the cost lookup does not
    know. *)
Definition accountOther : Account :=
  mkAccount [x03] (Some (PubKeyOther "sr25519.PubKeySr25519" [x03])) ∅ 9 0.

(** A CheckTx context with a minimum-fee floor of 20. *)
Definition checkCtx : Context :=
  mkContext "irishub" 10 true {[ "iris" := 20 ]} None [].

(** A multisig key with a multisig member, a member of an unrecognized
    type and an ed25519 member, and a signature that includes all three. *)
Definition nestedKey : PubKey :=
  PubKeyMultisigThreshold 2
    [keyM; PubKeyOther "sr25519.PubKeySr25519" [x03]; PubKeyEd25519 [x0d]].

Definition encodedNested : bytes :=
  [x03; x01; x01; x01; x08] ++ encoded101_2 ++ [x01; x00; x01; xdd].

End Example.

(** ** The cost of verifying a signature, as the spec words it *)

(** The members whose bit is set, each with its partial signature, in
    bitmap order; [None] when a set bit has no member or no partial
    signature left. *)
Fixpoint includedFrom {A} (bits : list bool) (members : list A)
    (sigs : list bytes) : option (list (A * bytes)) :=
  match bits with
  | [] => Some []
  | b :: bits' =>
    if b then
      match sigs, members with
      | s :: sigs', x :: members' =>
        option_map (cons (x, s)) (includedFrom bits' members' sigs')
      | _, _ => None
      end
    else includedFrom bits' (tail members) sigs
  end.

(** The sum of the costs of the included members. *)
Fixpoint sumCosts (l : list ((bytes -> option Z) * bytes)) : option Z :=
  match l with
  | [] => Some 0
  | (cost, s) :: l' =>
    match cost s, sumCosts l' with
    | Some c, Some t => Some (c + t)
    | _, _ => None
    end
  end.

(** The number of set bits of a bitmap. *)
Fixpoint countSet (bits : list bool) : nat :=
  match bits with
  | [] => 0
  | b :: bits' => (if b then 1 else 0) + countSet bits'
  end.

(** The members whose bit is set, in bitmap order. *)
Fixpoint setMembers {A} (bits : list bool) (members : list A) : list A :=
  match bits, members with
  | b :: bits', x :: members' =>
    if b then x :: setMembers bits' members' else setMembers bits' members'
  | _, _ => []
  end.

(** The sum of a list of costs. *)
Definition totalCost (costs : list Z) : Z := foldr Z.add 0 costs.

(** The gas meter after [c] more units. *)
Definition addGas (m : GasMeter) (c : Z) : GasMeter :=
  mkGasMeter (kind m) (consumed m + c).

(** A computation charges [c] units: it returns with [c] more units on the
    meter, unless a bounded meter runs out of gas on the way. *)
Definition charges {A} (f : M GasMeter A) (c : Z) : Prop :=
  forall m,
    (exists r, f m = Ret r (addGas m c))
    \/ (kind m <> Infinite /\ exists d m', f m = Panic (ErrorOutOfGas d) m').

Section Cost.

Context {E : Collaborators}.

(** The verification cost of a key for a signature: 59 for ed25519, 100
    for secp256k1, for a threshold multisig the sum of the costs of the
    included members, each for its own partial signature; an unrecognized
    key type costs nothing. [None] when the lookup does not return. *)
Fixpoint verificationCost (pubkey : PubKey) (sig : bytes) : option Z :=
  match pubkey with
  | PubKeyEd25519 _ => Some ed25519VerifyCost
  | PubKeySecp256k1 _ => Some secp256k1VerifyCost
  | PubKeyMultisigThreshold _ PubKeys =>
    match unmarshalMultisignature sig with
    | None => None
    | Some ms =>
      match includedFrom (BitArray ms) (map verificationCost PubKeys) (Sigs ms) with
      | None => None
      | Some l => sumCosts l
      end
    end
  | PubKeyOther n _ =>
    let t := ToLower n in
    if Contains t "ed25519" then Some ed25519VerifyCost
    else if Contains t "secp256k1" then Some secp256k1VerifyCost
    else if Contains t "multisigthreshold" then None
    else Some 0
  end.

End Cost.

(** Induction on public keys, through the members of a multisig key. *)
Fixpoint PubKey_members_ind (P : PubKey -> Prop)
    (Hed : forall bz, P (PubKeyEd25519 bz))
    (Hsecp : forall bz, P (PubKeySecp256k1 bz))
    (Hmulti : forall K pks, Forall P pks -> P (PubKeyMultisigThreshold K pks))
    (Hother : forall n bz, P (PubKeyOther n bz))
    (pk : PubKey) : P pk :=
  match pk with
  | PubKeyEd25519 bz => Hed bz
  | PubKeySecp256k1 bz => Hsecp bz
  | PubKeyMultisigThreshold K pks =>
    Hmulti K pks
      ((fix members (l : list PubKey) : Forall P l :=
          match l with
          | [] => @List.Forall_nil PubKey P
          | x :: l' =>
            @List.Forall_cons PubKey P x l'
              (PubKey_members_ind P Hed Hsecp Hmulti Hother x) (members l')
          end) pks)
  | PubKeyOther n bz => Hother n bz
  end.

(** The collaborators with another signature verification. *)
Definition withVerifyBytes (E : Collaborators)
    (V : PubKey -> bytes -> bytes -> bool) : Collaborators := {|
  Msg := @Msg E;
  gasLog := @gasLog E;
  unmarshalMultisignature := @unmarshalMultisignature E;
  VerifyBytes := V;
  Address := @Address E;
  addrString := @addrString E;
  coinsString := @coinsString E;
  ValidateBasic := @ValidateBasic E;
  GetSigners := @GetSigners E;
  StdSignBytes := @StdSignBytes E
|}.

(** The account after a successful [processSig] that resolved [pk]. *)
Definition bumpSequence (acc : Account) (pk : PubKey) : Account :=
  SetSequence (SetPubKey acc (Some pk)) (wrap64 (GetSequence acc + 1)).

(** Every account is stored under its own address. *)
Definition wfStore (store : gmap AccAddress Account) : Prop :=
  forall a acc, store !! a = Some acc -> GetAddress acc = a.


(** Two accounts with the same address, account number and sequence. *)
Definition sameNonce (acc acc' : Account) : Prop :=
  GetAddress acc' = GetAddress acc
  /\ GetAccountNumber acc' = GetAccountNumber acc
  /\ GetSequence acc' = GetSequence acc.

(** ** The store keys of the service keeper (ante.go, lines 322-433) *)

Local Open Scope list_scope.

(** [byte(v)]: the low eight bits. *)
Definition byteOfZ (v : Z) : byte :=
  default x00 (Byte.of_N (Z.to_N (v mod 256))).

(** [[]byte(s)] *)
Definition bytesOf (s : string) : bytes := String.list_byte_of_string s.

(** The UTF-8 encoding of a code point ([utf8.EncodeRune] on a valid rune). *)
Definition encodeRune (r : Z) : bytes :=
  if r <? 128 then [byteOfZ r]
  else if r <? 2048 then
    [byteOfZ (Z.lor 192 (Z.shiftr r 6)); byteOfZ (Z.lor 128 (Z.land r 63))]
  else if r <? 65536 then
    [byteOfZ (Z.lor 224 (Z.shiftr r 12));
     byteOfZ (Z.lor 128 (Z.land (Z.shiftr r 6) 63));
     byteOfZ (Z.lor 128 (Z.land r 63))]
  else
    [byteOfZ (Z.lor 240 (Z.shiftr r 18));
     byteOfZ (Z.lor 128 (Z.land (Z.shiftr r 12) 63));
     byteOfZ (Z.lor 128 (Z.land (Z.shiftr r 6) 63));
     byteOfZ (Z.lor 128 (Z.land r 63))].

(** A valid Unicode code point: at most U+10FFFF and no surrogate. *)
Definition validRune (r : Z) : bool :=
  (0 <=? r) && (r <=? 1114111) && negb ((55296 <=? r) && (r <=? 57343)).

(** [string(n)] of an integer [n]: the UTF-8 encoding of the code point [n],
    of U+FFFD when [n] is no valid code point. *)
Definition runeString (n : Z) : bytes :=
  if validRune n then encodeRune n else encodeRune 65533.

(** [binary.BigEndian.PutUint64] and [PutUint16]: the [n] low bytes of [v],
    most significant first. *)
Fixpoint bigEndian (n : nat) (v : Z) : bytes :=
  match n with
  | O => []
  | S n' => byteOfZ (Z.shiftr v (8 * Z.of_nat n')) :: bigEndian n' v
  end.

(** [uint16(counter)] *)
Definition wrap16 (z : Z) : Z := z mod 2 ^ 16.

(** The separator and the store prefixes (ante.go, lines 331-346). *)
Definition emptyByte : bytes := [x00].
Definition serviceDefinitionKey : bytes := [x01].
Definition serviceBindingKey : bytes := [x02].
Definition requestContextKey : bytes := [x03].
Definition requestKey : bytes := [x03].
Definition responseKey : bytes := [x04].
Definition requestsByExpirationIndexKey : bytes := [x05].
Definition intraCounterKey : bytes := [x06].
Definition activeRequestKey : bytes := [x07].
Definition returnedFeeKey : bytes := [x08].
Definition incomingFeeKey : bytes := [x09].

(** [getStringsKey] (ante.go, lines 422-433); a component is the byte
    sequence of a Go string. *)
Definition getStringsKey (ss : list bytes) : bytes :=
  let result := foldl (fun result s => (result ++ s) ++ emptyByte) [] ss in
  if (0 <? length result)%nat then take (length result - 1) result
  else result.

Section Keys.

Context {E : Collaborators}.

(** [provider.String()] as bytes. *)
Definition providerString (provider : AccAddress) : bytes :=
  bytesOf (addrString provider).

(** [GetServiceDefinitionKey] (ante.go, lines 349-351) *)
Definition GetServiceDefinitionKey (name : string) : bytes :=
  serviceDefinitionKey ++ bytesOf name.

(** [GetServiceBindingKey] (ante.go, lines 354-356) *)
Definition GetServiceBindingKey (serviceName : string) (provider : AccAddress) : bytes :=
  serviceBindingKey ++ getStringsKey [bytesOf serviceName; providerString provider].

(** [GetBindingsSubspace] (ante.go, lines 359-361) *)
Definition GetBindingsSubspace (serviceName : string) : bytes :=
  (serviceBindingKey ++ bytesOf serviceName) ++ emptyByte.

(** [GetRequestContextKey] (ante.go, lines 364-366) *)
Definition GetRequestContextKey (requestContextID : bytes) : bytes :=
  requestContextKey ++ requestContextID.

(** [GetRequestKey] (ante.go, lines 368-371) *)
Definition GetRequestKey (defChainId serviceName bindChainId : string)
    (provider : AccAddress) (height counter : Z) : bytes :=
  requestKey ++ getStringsKey [bytesOf defChainId; bytesOf serviceName;
                               bytesOf bindChainId; providerString provider;
                               runeString height; runeString counter].

(** [GetActiveRequestKey] (ante.go, lines 373-376) *)
Definition GetActiveRequestKey (defChainId serviceName bindChainId : string)
    (provider : AccAddress) (height counter : Z) : bytes :=
  activeRequestKey ++ getStringsKey [bytesOf defChainId; bytesOf serviceName;
                                     bytesOf bindChainId; providerString provider;
                                     runeString height; runeString counter].

(** [GetSubActiveRequestKey] (ante.go, lines 378-383) *)
Definition GetSubActiveRequestKey (defChainId serviceName bindChainId : string)
    (provider : AccAddress) : bytes :=
  (activeRequestKey ++ getStringsKey [bytesOf defChainId; bytesOf serviceName;
                                      bytesOf bindChainId; providerString provider])
    ++ emptyByte.

(** [GetResponseKey] (ante.go, lines 385-388) *)
Definition GetResponseKey (reqChainId : string) (eHeight rHeight counter : Z) : bytes :=
  responseKey ++ getStringsKey [bytesOf reqChainId; runeString eHeight;
                                runeString rHeight; runeString counter].

(** [GetRequestsByExpirationIndexKey] (ante.go, lines 395-403): the key of
    1+8+8+2 bytes, filled slot by slot. *)
Definition GetRequestsByExpirationIndexKey (eHeight rHeight counter : Z) : bytes :=
  [default x00 (requestsByExpirationIndexKey !! 0%nat)]
    ++ bigEndian 8 (wrap64 eHeight)
    ++ bigEndian 8 (wrap64 rHeight)
    ++ bigEndian 2 (wrap16 counter).

(** [GetRequestsByExpirationPrefix] (ante.go, lines 406-412) *)
Definition GetRequestsByExpirationPrefix (height : Z) : bytes :=
  [default x00 (requestsByExpirationIndexKey !! 0%nat)]
    ++ bigEndian 8 (wrap64 height).

(** [GetReturnedFeeKey] and [GetIncomingFeeKey] (ante.go, lines 414-420) *)
Definition GetReturnedFeeKey (address : AccAddress) : bytes :=
  returnedFeeKey ++ address.

Definition GetIncomingFeeKey (address : AccAddress) : bytes :=
  incomingFeeKey ++ address.

End Keys.

(** [binary.BigEndian.Uint64] and [Uint16]: the number a byte sequence
    spells, most significant byte first. *)
Definition fromBigEndian (bz : bytes) : Z :=
  foldl (fun acc b => acc * 256 + Z.of_N (Byte.to_N b)) 0 bz.

(** The components joined with the separator between them. *)
Fixpoint joinWith (sep : bytes) (ss : list bytes) : bytes :=
  match ss with
  | [] => []
  | [s] => s
  | s :: ss' => s ++ sep ++ joinWith sep ss'
  end.

(** The state an outcome leaves behind, returned or unwound. *)
Definition stateOf {S A} (o : Outcome S A) : S :=
  match o with
  | Ret _ s => s
  | Panic _ s => s
  end.

(** [acc'], stored under [a], comes from the account that [base] holds
    under [a]: same address and account number, and the same sequence or
    the next one. *)
Definition evolved (base : gmap AccAddress Account) (a : AccAddress)
    (acc' : Account) : Prop :=
  GetAddress acc' = a
  /\ exists acc, base !! a = Some acc
       /\ GetAccountNumber acc' = GetAccountNumber acc
       /\ (GetSequence acc' = GetSequence acc
           \/ GetSequence acc' = wrap64 (GetSequence acc + 1)).

(** A store whose accounts all come from [base], with none missing. *)
Definition storeEvolved (base store : gmap AccAddress Account) : Prop :=
  (forall a acc', store !! a = Some acc' -> evolved base a acc')
  /\ (forall a, is_Some (base !! a) -> is_Some (store !! a)).

(** ** More example data: account B submitting with the wrong sequence *)
Module Scenario.

Definition addrB : AccAddress := [x02].




(** The sign bytes of account A's transaction. *)
Definition signBytesA : bytes :=
  Demo.signBytes "irishub" 7 3 (Example.fee 50000) [Example.addrA] "".









(** A multisig key with a multisig member, and a multisignature that
    includes both members with an empty partial signature for the first. *)
Definition nestedMembers : list PubKey := [Example.keyM; PubKeySecp256k1 [x0d]].

Definition malformedNested : Multisignature :=
  mkMultisignature [true; true] [[]; [xdd]].

End Scenario.

(** [bytes.Compare(a, b) < 0]: the order in which a store iterates over its
    keys. *)
Inductive lexLess : bytes -> bytes -> Prop :=
| lexLess_nil (b : byte) (k : bytes) : lexLess [] (b :: k)
| lexLess_head (a b : byte) (l k : bytes) :
    (Byte.to_N a < Byte.to_N b)%N -> lexLess (a :: l) (b :: k)
| lexLess_tail (a : byte) (l k : bytes) :
    lexLess l k -> lexLess (a :: l) (a :: k).

(** * Properties *)

(** ** Account-number and sequence validation *)

Lemma validateSigner_at {S} ctx accs sigs i acc sig (s : S) :
  accs !! i = Some acc -> sigs !! i = Some sig ->
  validateSigner ctx accs sigs i s =
    Ret (if decide (conforms ctx acc sig) then None
         else Some (ErrInvalidSequence (violationLog ctx acc sig))) s.
Proof.
  intros Ha Hs.
  assert (Hidx : forall A (l : list A) x, l !! i = Some x ->
                   @index S A l i = ret x).
  { intros A l x Hl. unfold index, ret. rewrite Hl. reflexivity. }
  unfold validateSigner. rewrite (Hidx _ _ _ Ha), (Hidx _ _ _ Hs).
  unfold bind, ret.
  destruct (decide (conforms ctx acc sig)) as [[c1 c2] | Hbad];
    unfold violationLog; unfold conforms in *;
    unfold expectedAccountNumber in *;
    destruct (BlockHeight ctx =? 0); simpl.
  - rewrite c1, c2. simpl. rewrite Z.eqb_refl. reflexivity.
  - rewrite c1, c2, !Z.eqb_refl. simpl. reflexivity.
  - destruct (Z.eqb_spec (AccountNumber sig) 0) as [e0 | n0]; simpl.
    + rewrite bool_decide_eq_true_2 by assumption.
      destruct (Z.eqb_spec (GetSequence acc) (Sequence sig)) as [e1 | n1];
        simpl; [exfalso; apply Hbad; split; congruence | reflexivity].
    + rewrite bool_decide_eq_false_2 by assumption. reflexivity.
  - destruct (Z.eqb_spec (GetAccountNumber acc) (AccountNumber sig)) as [e0 | n0]; simpl.
    + rewrite bool_decide_eq_true_2 by congruence.
      destruct (Z.eqb_spec (GetSequence acc) (Sequence sig)) as [e1 | n1];
        simpl; [exfalso; apply Hbad; split; congruence | reflexivity].
    + rewrite bool_decide_eq_false_2 by congruence. reflexivity.
Qed.

Lemma validateFrom_ok {S} ctx accs sigs (s : S) n i :
  (forall j acc sig, (i <= j < i + n)%nat ->
     accs !! j = Some acc -> sigs !! j = Some sig -> conforms ctx acc sig) ->
  (i + n <= length accs)%nat -> (i + n <= length sigs)%nat ->
  validateFrom ctx accs sigs n i s = Ret okResult s.
Proof.
  revert i. induction n as [| n IH]; intros i Hc Ha Hs; [reflexivity |].
  destruct (lookup_lt_is_Some_2 accs i) as [acc Hacc]; [lia |].
  destruct (lookup_lt_is_Some_2 sigs i) as [sig Hsig]; [lia |].
  simpl. unfold bind. rewrite (validateSigner_at _ _ _ _ _ _ _ Hacc Hsig).
  destruct (decide _) as [_ | n0].
  - apply IH; [| lia | lia]. intros j a g Hj. apply Hc. lia.
  - exfalso. apply n0. apply (Hc i); [lia | assumption | assumption].
Qed.

Lemma validateFrom_violation {S} ctx accs sigs (s : S) n i k acc sig :
  (i <= k < i + n)%nat ->
  accs !! k = Some acc -> sigs !! k = Some sig ->
  (forall j acc' sig', (i <= j < k)%nat ->
     accs !! j = Some acc' -> sigs !! j = Some sig' -> conforms ctx acc' sig') ->
  (forall j, (j < k)%nat -> is_Some (accs !! j) /\ is_Some (sigs !! j)) ->
  ~ conforms ctx acc sig ->
  validateFrom ctx accs sigs n i s =
    Ret (ErrInvalidSequence (violationLog ctx acc sig)) s.
Proof.
  revert i. induction n as [| n IH]; intros i Hk Hacc Hsig Hpre Hdef Hbad; [lia |].
  simpl. unfold bind.
  destruct (decide (i = k)) as [-> | Hne].
  - rewrite (validateSigner_at _ _ _ _ _ _ _ Hacc Hsig).
    destruct (decide _) as [c | _]; [contradiction | reflexivity].
  - destruct (Hdef i) as [[a Ha] [g Hg]]; [lia |].
    rewrite (validateSigner_at _ _ _ _ _ _ _ Ha Hg).
    destruct (decide _) as [_ | n0].
    + apply IH; try assumption; [lia |]. intros j a' g' Hj. apply Hpre. lia.
    + exfalso. apply n0. apply (Hpre i); [lia | assumption | assumption].
Qed.

(** C1. validateAccNumAndSequence checks the signers in order: at height 0
    the claimed account number must be 0, at any other height the stored
    one, and the claimed sequence must be the stored one. With no violation
    the result is OK; otherwise it is the invalid-sequence error of the
    first violating signer, whose message names the claimed (got) and the
    expected value. *)
Theorem validateAccNumAndSequence_first_violation {S} ctx accs sigs (s : S) :
  (length accs <= length sigs)%nat ->
  ((forall i acc sig, accs !! i = Some acc -> sigs !! i = Some sig ->
      conforms ctx acc sig) ->
   validateAccNumAndSequence ctx accs sigs s = Ret okResult s)
  /\
  (forall i acc sig,
      accs !! i = Some acc -> sigs !! i = Some sig ->
      (forall j acc' sig', (j < i)%nat ->
         accs !! j = Some acc' -> sigs !! j = Some sig' -> conforms ctx acc' sig') ->
      ~ conforms ctx acc sig ->
      validateAccNumAndSequence ctx accs sigs s =
        Ret (ErrInvalidSequence (violationLog ctx acc sig)) s
      /\ IsOK (ErrInvalidSequence (violationLog ctx acc sig)) = false).
Proof.
  intros Hlen. split.
  - intros Hc. apply validateFrom_ok; [| simpl; lia | simpl; lia].
    intros j a g _. apply Hc.
  - intros i acc sig Hacc Hsig Hpre Hbad. split; [| reflexivity].
    apply validateFrom_violation with (k := i); try assumption.
    + apply lookup_lt_Some in Hacc. lia.
    + intros j a g [_ Hj]. apply Hpre. assumption.
    + intros j Hj. apply lookup_lt_Some in Hacc.
      split; apply lookup_lt_is_Some_2; lia.
Qed.

(** ** Coins *)

Lemma AmountOf_coinsDiff (a b : Coins) d :
  AmountOf (coinsDiff a b) d = AmountOf a d - AmountOf b d.
Proof.
  unfold AmountOf, coinsDiff. rewrite lookup_merge.
  destruct (a !! d) as [x |], (b !! d) as [y |]; simpl;
    try reflexivity; case_decide; simpl; lia.
Qed.

Lemma AmountOf_coinsPlus (a b : Coins) d :
  AmountOf (coinsPlus a b) d = AmountOf a d + AmountOf b d.
Proof.
  unfold AmountOf, coinsPlus. rewrite lookup_merge.
  destruct (a !! d) as [x |], (b !! d) as [y |]; simpl;
    try reflexivity; case_decide; simpl; lia.
Qed.

Lemma IsAnyNegative_true (c : Coins) :
  IsAnyNegative c = true <-> exists d, AmountOf c d < 0.
Proof.
  unfold IsAnyNegative, AmountOf. rewrite bool_decide_eq_true. split.
  - intros (d & v & Hd & Hv). exists d. rewrite Hd. exact Hv.
  - intros (d & Hd). destruct (c !! d) as [v |] eqn:Hc; simpl in Hd; [| lia].
    exists d, v. split; assumption.
Qed.

Lemma IsAnyNegative_false (c : Coins) :
  IsAnyNegative c = false <-> forall d, 0 <= AmountOf c d.
Proof.
  split.
  - intros Hf d. destruct (Z.le_gt_cases 0 (AmountOf c d)) as [|Hlt]; [assumption |].
    assert (IsAnyNegative c = true) by (apply IsAnyNegative_true; exists d; lia).
    congruence.
  - intros Hall. destruct (IsAnyNegative c) eqn:Hn; [| reflexivity].
    apply IsAnyNegative_true in Hn as [d Hd]. specialize (Hall d). lia.
Qed.

Lemma IsZero_true (c : Coins) :
  IsZero c = true <-> forall d, AmountOf c d = 0.
Proof.
  unfold IsZero, AmountOf. rewrite bool_decide_eq_true. split.
  - intros Hall d. destruct (c !! d) as [v |] eqn:Hc; [| reflexivity].
    simpl. exact (Hall d v Hc).
  - intros Hall d v Hc. specialize (Hall d). rewrite Hc in Hall. exact Hall.
Qed.

Lemma IsAllGTE_true (a b : Coins) :
  IsAllGTE a b = true <-> forall d, AmountOf b d <= AmountOf a d.
Proof.
  unfold IsAllGTE, SafeSub. simpl. rewrite negb_true_iff, IsAnyNegative_false.
  split; intros H d; specialize (H d); rewrite AmountOf_coinsDiff in *; lia.
Qed.

Lemma IsAllGTE_false (a b : Coins) :
  IsAllGTE a b = false <-> exists d, AmountOf a d < AmountOf b d.
Proof.
  unfold IsAllGTE, SafeSub. simpl. rewrite negb_false_iff, IsAnyNegative_true.
  split; intros [d H]; exists d; rewrite AmountOf_coinsDiff in *; lia.
Qed.

Section AnteProperties.

Context {E : Collaborators}.

(** ** Public-key resolution *)

(** C7. When not simulating, processPubKey uses the account's stored key if
    there is one; otherwise it adopts the key of the signature entry, but
    only when that key's address is the account's address: a mismatch is an
    invalid-public-key error, and so is a key missing from both the account
    and the signature entry, with the message "PubKey not found". *)
Theorem processPubKey_not_simulating (acc : Account) (sig : StdSignature) :
  (forall pk, GetPubKey acc = Some pk -> processPubKey acc sig false = inl pk)
  /\ (forall pk, GetPubKey acc = None -> SigPubKey sig = Some pk ->
        Address pk = GetAddress acc -> processPubKey acc sig false = inl pk)
  /\ (forall pk, GetPubKey acc = None -> SigPubKey sig = Some pk ->
        Address pk <> GetAddress acc ->
        processPubKey acc sig false =
          inr (ErrInvalidPubKey ("PubKey does not match Signer address "
                                   +:+ addrString (GetAddress acc))))
  /\ (GetPubKey acc = None -> SigPubKey sig = None ->
        processPubKey acc sig false = inr (ErrInvalidPubKey "PubKey not found"))
  /\ Code (ErrInvalidPubKey "PubKey not found") = CodeInvalidPubKey.
Proof.
  unfold processPubKey. repeat split.
  - intros pk ->. reflexivity.
  - intros pk -> -> Ha. rewrite bool_decide_eq_true_2 by assumption. reflexivity.
  - intros pk -> -> Ha. rewrite bool_decide_eq_false_2 by assumption. reflexivity.
  - intros -> ->. reflexivity.
Qed.

(** ** Gas-meter construction *)

(** C6. setGasMeter installs the infinite meter, on which consuming gas
    never aborts, when simulating or at block height 0; otherwise it
    installs the meter bounded by the declared gas limit with base 1.02 and
    shift 285, whose effective consumption is the raw amount up to the
    shift and log(gas)/log(1.02) beyond it, and which raises the out-of-gas
    signal exactly when that exceeds the limit. *)
Theorem setGasMeter_construction (simulate : bool) (ctx : Context) (gasLimit : Z) :
  (simulate = true \/ BlockHeight ctx = 0 ->
     setGasMeter simulate ctx gasLimit = WithGasMeter ctx NewInfiniteGasMeter
     /\ forall m amount descriptor, kind m = kind NewInfiniteGasMeter ->
          ConsumeGas amount descriptor m
            = Ret tt (mkGasMeter (kind m) (consumed m + amount)))
  /\ (simulate = false /\ BlockHeight ctx <> 0 ->
        setGasMeter simulate ctx gasLimit
          = WithGasMeter ctx (NewGasMeterWithBase gasLimit (102 # 100) 285)
        /\ forall m amount descriptor,
             kind m = kind (NewGasMeterWithBase gasLimit (102 # 100) 285) ->
             let m' := mkGasMeter (kind m) (consumed m + amount) in
             effectiveGas m' = (if consumed m' <=? 285 then consumed m'
                                else gasLog (102 # 100) (consumed m'))
             /\ ConsumeGas amount descriptor m
                  = (if gasLimit <? effectiveGas m'
                     then Panic (ErrorOutOfGas descriptor) m' else Ret tt m')).
Proof.
  split.
  - intros H. split.
    + unfold setGasMeter. destruct H as [-> | ->]; [reflexivity |].
      rewrite orb_true_r. reflexivity.
    + intros m amount d Hk. unfold ConsumeGas. rewrite Hk. reflexivity.
  - intros [-> Hh]. split.
    + unfold setGasMeter. apply Z.eqb_neq in Hh. rewrite Hh. reflexivity.
    + intros m amount d Hk. unfold ConsumeGas, effectiveGas. simpl.
      rewrite Hk. simpl. split; reflexivity.
Qed.

(** ** The mempool admission check *)

(** C9. The handler runs the mempool check only in CheckTx mode and when not
    simulating. The check rejects a declared gas that is not positive;
    with a nonzero minimum-fee floor it rejects, as an insufficient fee, a
    fee amount below the floor in some denomination; otherwise it is OK.
    A rejection leaves the state as it was. *)
Theorem mempool_admission_check (ctx : Context) (stdTx : StdTx Msg)
    (simulate : bool) (s : State) :
  (IsCheckTx ctx = false \/ simulate = true ->
     NewAnteHandler ctx (TxStd stdTx) simulate s = meteredAnte ctx stdTx simulate s)
  /\ (IsCheckTx ctx = true -> simulate = false ->
      (Gas (Fee stdTx) <= 0 ->
         NewAnteHandler ctx (TxStd stdTx) simulate s
           = Ret (zeroContext,
                  ErrInternal ("invalid gas supplied: " +:+ fmt_d (Gas (Fee stdTx))),
                  true) s)
      /\ (0 < Gas (Fee stdTx) -> IsZero (MinimumFees ctx) = false ->
          (exists d, AmountOf (Amount (Fee stdTx)) d < AmountOf (MinimumFees ctx) d) ->
          NewAnteHandler ctx (TxStd stdTx) simulate s
            = Ret (zeroContext,
                   ErrInsufficientFee
                     ("insufficient fee, got: "
                        +:+ fmt_q (coinsString (Amount (Fee stdTx)))
                        +:+ " required: " +:+ fmt_q (coinsString (MinimumFees ctx))),
                   true) s)
      /\ (0 < Gas (Fee stdTx) ->
          (IsZero (MinimumFees ctx) = true
           \/ forall d, AmountOf (MinimumFees ctx) d <= AmountOf (Amount (Fee stdTx)) d) ->
          ensureSufficientMempoolFees ctx stdTx = okResult
          /\ NewAnteHandler ctx (TxStd stdTx) simulate s
               = meteredAnte ctx stdTx simulate s)).
Proof.
  split.
  - intros H. unfold NewAnteHandler. destruct H as [-> | ->]; [reflexivity |].
    rewrite andb_false_r. reflexivity.
  - intros Hc ->. unfold NewAnteHandler, ensureSufficientMempoolFees.
    rewrite Hc. simpl. split; [| split].
    + intros Hg. apply Z.leb_le in Hg. rewrite Hg. reflexivity.
    + intros Hg Hz Hlt. apply Z.leb_gt in Hg. rewrite Hg, Hz. simpl.
      apply IsAllGTE_false in Hlt. rewrite Hlt. reflexivity.
    + intros Hg Hfloor. apply Z.leb_gt in Hg. rewrite Hg.
      destruct Hfloor as [-> | Hge]; [split; reflexivity |].
      apply IsAllGTE_true in Hge. rewrite Hge, andb_false_r. split; reflexivity.
Qed.

(** ** Fee deduction *)

Lemma deductFees_insufficient (acc : Account) (fee : StdFee) :
  (exists d, AmountOf (GetCoins acc) d < AmountOf (Amount fee) d) ->
  deductFees acc fee =
    (acc, None,
     ErrInsufficientFunds
       ("account balance [" +:+ coinsString (GetCoins acc)
          +:+ "] is not enough to cover fee [" +:+ coinsString (Amount fee) +:+ "]")).
Proof.
  intros [d Hd]. unfold deductFees, SafeSub.
  assert (Hn : IsAnyNegative (coinsDiff (GetCoins acc) (Amount fee)) = true).
  { apply IsAnyNegative_true. exists d. rewrite AmountOf_coinsDiff. lia. }
  rewrite Hn. reflexivity.
Qed.

Lemma deductFees_sufficient (acc : Account) (fee : StdFee) :
  (forall d, AmountOf (Amount fee) d <= AmountOf (GetCoins acc) d) ->
  let acc' := SetCoins acc (coinsDiff (GetCoins acc) (Amount fee)) in
  deductFees acc fee = (acc', Some acc', okResult).
Proof.
  intros Hall. unfold deductFees, SafeSub.
  assert (Hn : IsAnyNegative (coinsDiff (GetCoins acc) (Amount fee)) = false).
  { apply IsAnyNegative_false. intros d. rewrite AmountOf_coinsDiff.
    specialize (Hall d). lia. }
  rewrite Hn. reflexivity.
Qed.

(** C4. The fee stage touches the first signer's account only, and only for
    a nonzero fee amount. With a balance below the fee in some denomination
    deductFees rejects with insufficient funds and leaves the account as it
    was; otherwise the balance goes down by exactly the fee in every
    denomination, never below zero, and the fee amount is added to the
    collected fees. *)
Theorem deductFees_first_signer_only (stdTx : StdTx Msg) (s : State) :
  (forall signerAccs, IsZero (Amount (Fee stdTx)) = true ->
     deductFeeStage stdTx signerAccs s = Ret (inl signerAccs) s)
  /\ (forall acc,
        (exists d, AmountOf (GetCoins acc) d < AmountOf (Amount (Fee stdTx)) d) ->
        exists res,
          deductFees acc (Fee stdTx) = (acc, None, res)
          /\ Code res = CodeInsufficientFunds
          /\ forall rest, IsZero (Amount (Fee stdTx)) = false ->
               deductFeeStage stdTx (acc :: rest) s = Ret (inr res) s)
  /\ (forall acc,
        (forall d, AmountOf (Amount (Fee stdTx)) d <= AmountOf (GetCoins acc) d) ->
        exists acc',
          deductFees acc (Fee stdTx) = (acc', Some acc', okResult)
          /\ (forall d, AmountOf (GetCoins acc') d
                        = AmountOf (GetCoins acc) d - AmountOf (Amount (Fee stdTx)) d)
          /\ (forall d, 0 <= AmountOf (GetCoins acc') d)
          /\ GetAddress acc' = GetAddress acc
          /\ GetPubKey acc' = GetPubKey acc
          /\ GetAccountNumber acc' = GetAccountNumber acc
          /\ GetSequence acc' = GetSequence acc
          /\ forall rest, IsZero (Amount (Fee stdTx)) = false ->
               exists s',
                 deductFeeStage stdTx (acc :: rest) s = Ret (inl (acc' :: rest)) s'
                 /\ accounts s' = accounts s
                 /\ meter s' = meter s
                 /\ forall d, AmountOf (collectedFees s') d
                              = AmountOf (collectedFees s) d
                                + AmountOf (Amount (Fee stdTx)) d).
Proof.
  split; [| split].
  - intros accs Hz. unfold deductFeeStage. rewrite Hz. reflexivity.
  - intros acc Hlt. eexists. split; [apply deductFees_insufficient, Hlt |].
    split; [reflexivity |].
    intros rest Hz. unfold deductFeeStage. rewrite Hz. simpl.
    unfold bind, index. simpl.
    rewrite (deductFees_insufficient _ _ Hlt). reflexivity.
  - intros acc Hge. eexists. split; [apply deductFees_sufficient, Hge |].
    split; [intros d; simpl; apply AmountOf_coinsDiff |].
    split; [intros d; simpl; rewrite AmountOf_coinsDiff; specialize (Hge d); lia |].
    do 4 (split; [reflexivity |]).
    intros rest Hz. unfold deductFeeStage. rewrite Hz. simpl.
    unfold bind, index. simpl.
    rewrite (deductFees_sufficient _ _ Hge). simpl.
    eexists. split; [reflexivity |]. simpl.
    split; [reflexivity |]. split; [reflexivity |].
    intros d. apply AmountOf_coinsPlus.
Qed.

(** ** The recovery boundary *)

Lemma setGasMeter_installs (simulate : bool) (ctx : Context) (gasLimit : Z) :
  exists m, CtxGasMeter (setGasMeter simulate ctx gasLimit) = Some m.
Proof. unfold setGasMeter. destruct (_ || _); eexists; reflexivity. Qed.

Lemma recoverOutOfGas_no_out_of_gas (stdTx : StdTx Msg) newCtx o d s' :
  recoverOutOfGas stdTx newCtx o <> Panic (ErrorOutOfGas d) s'.
Proof.
  destruct o as [[[c r] a] s | [d0 | msg | msg] s]; simpl; congruence.
Qed.

(** C2. The deferred recovery of the handler catches the out-of-gas signal
    and nothing else. When the body, run on the installed gas meter, raises
    the signal, the handler returns the out-of-gas result with gas_wanted
    the declared gas limit, gas_used read from the installed meter, and
    abort set; a panic with any other value leaves the handler as it is;
    and the handler itself never panics with the out-of-gas signal. *)
Theorem ante_recovers_only_out_of_gas (ctx : Context) (stdTx : StdTx Msg)
    (simulate : bool) (s : State) (m : GasMeter) :
  CtxGasMeter (setGasMeter simulate ctx (Gas (Fee stdTx))) = Some m ->
  (IsCheckTx ctx && negb simulate = true ->
     IsOK (ensureSufficientMempoolFees ctx stdTx) = true) ->
  let newCtx := setGasMeter simulate ctx (Gas (Fee stdTx)) in
  let body := anteBody ctx newCtx stdTx simulate
                (mkState m (accounts s) (collectedFees s)) in
  (forall descriptor s', body = Panic (ErrorOutOfGas descriptor) s' ->
     NewAnteHandler ctx (TxStd stdTx) simulate s
       = Ret (WithGasMeter newCtx (meter s'),
              mkResult CodeOutOfGas ("out of gas in location: " +:+ descriptor)
                       (Gas (Fee stdTx)) (GasConsumed (meter s')),
              true) s')
  /\ (forall p s', body = Panic p s' ->
        (forall descriptor, p <> ErrorOutOfGas descriptor) ->
        NewAnteHandler ctx (TxStd stdTx) simulate s = Panic p s')
  /\ (forall tx descriptor s',
        NewAnteHandler ctx tx simulate s <> Panic (ErrorOutOfGas descriptor) s').
Proof.
  intros Hm Hmem newCtx body.
  assert (Hante : NewAnteHandler ctx (TxStd stdTx) simulate s
                  = recoverOutOfGas stdTx newCtx body).
  { unfold NewAnteHandler.
    assert (Hmet : meteredAnte ctx stdTx simulate s
                   = recoverOutOfGas stdTx newCtx body).
    { unfold meteredAnte. rewrite Hm. reflexivity. }
    destruct (IsCheckTx ctx && negb simulate); [| exact Hmet].
    rewrite (Hmem eq_refl). simpl. exact Hmet. }
  split; [| split].
  - intros d s' Hb. rewrite Hante, Hb. reflexivity.
  - intros p s' Hb Hne. rewrite Hante, Hb.
    destruct p as [d | msg | msg]; [destruct (Hne d eq_refl) | reflexivity | reflexivity].
  - intros tx d s'. destruct tx as [stdTx' |]; [| simpl; congruence].
    unfold NewAnteHandler.
    assert (Hmet : meteredAnte ctx stdTx' simulate s <> Panic (ErrorOutOfGas d) s').
    { unfold meteredAnte.
      destruct (CtxGasMeter (setGasMeter simulate ctx (Gas (Fee stdTx'))));
        [apply recoverOutOfGas_no_out_of_gas | congruence]. }
    destruct (IsCheckTx ctx && negb simulate); [| exact Hmet].
    destruct (negb _); [congruence | exact Hmet].
Qed.

(** ** Signature-verification gas *)

Lemma addGas_0 (m : GasMeter) : addGas m 0 = m.
Proof. destruct m. unfold addGas. simpl. f_equal. lia. Qed.

Lemma addGas_addGas (m : GasMeter) a b : addGas (addGas m a) b = addGas m (a + b).
Proof. unfold addGas. simpl. f_equal. lia. Qed.

Lemma ConsumeGas_charges (amount : Z) (descriptor : string) :
  charges (ConsumeGas amount descriptor) amount.
Proof.
  intros m. unfold ConsumeGas. fold (addGas m amount).
  destruct (kind m) eqn:Hk; [left; eexists; reflexivity |].
  destruct (_ <? _).
  - right. split; [congruence |]. eexists _, _. reflexivity.
  - left. eexists. reflexivity.
Qed.

Lemma charges_ret {A} (a : A) : charges (ret a) 0.
Proof. intros m. left. exists a. rewrite addGas_0. reflexivity. Qed.

Lemma charges_bind {A B} (f : M GasMeter A) (k : A -> M GasMeter B) a b :
  charges f a -> (forall x, charges (k x) b) -> charges (bind f k) (a + b).
Proof.
  intros Hf Hk m. unfold bind.
  destruct (Hf m) as [[r Hr] | [Hinf (d & m' & Hp)]].
  - rewrite Hr. destruct (Hk r (addGas m a)) as [[r' Hr'] | [Hinf (d & m' & Hp)]].
    + left. exists r'. rewrite Hr', addGas_addGas. reflexivity.
    + right. split; [exact Hinf |]. eexists _, _. exact Hp.
  - right. split; [exact Hinf |]. rewrite Hp. eexists _, _. reflexivity.
Qed.

Lemma tail_drop {A} (l : list A) i : tail (drop i l) = drop (S i) l.
Proof.
  revert l. induction i as [| i IH]; intros l.
  - destruct l; reflexivity.
  - destruct l as [| x l]; [reflexivity |]. simpl. apply IH.
Qed.

Lemma bind_ret {S A B} (x : A) (k : A -> M S B) : bind (ret x) k = k x.
Proof. reflexivity. Qed.

Lemma index_lookup {S A} (l : list A) i x :
  l !! i = Some x -> @index S A l i = ret x.
Proof. intros H. unfold index, ret. rewrite H. reflexivity. Qed.

(** The loop charges the sum of the costs of the included members when each
    member's charge refines its cost. *)
Lemma multisigLoop_charges (charge : list (bytes -> M GasMeter Result))
    (costs : list (bytes -> option Z)) (sig : Multisignature) :
  Forall2 (fun f g => forall s c, g s = Some c -> charges (f s) c) charge costs ->
  forall n i k l total,
    (i + n = length (BitArray sig))%nat ->
    includedFrom (drop i (BitArray sig)) (drop i costs) (drop k (Sigs sig)) = Some l ->
    sumCosts l = Some total ->
    charges (multisigLoop charge sig n i k) total.
Proof.
  intros Hrel. induction n as [| n IH]; intros i k l total Hlen Hinc Hsum.
  - replace i with (length (BitArray sig)) in Hinc by lia.
    rewrite drop_all in Hinc. simpl in Hinc. injection Hinc as <-.
    simpl in Hsum. injection Hsum as <-. apply charges_ret.
  - destruct (lookup_lt_is_Some_2 (BitArray sig) i) as [b Hb]; [lia |].
    rewrite (drop_S _ _ _ Hb) in Hinc. simpl in Hinc. simpl.
    unfold GetIndex. rewrite Hb. simpl. destruct b.
    + destruct (drop k (Sigs sig)) as [| s sigs'] eqn:Hs; [discriminate |].
      destruct (drop i costs) as [| g costs'] eqn:Hg; [discriminate |].
      destruct (includedFrom _ costs' sigs') as [l' |] eqn:Hinc'; [| discriminate].
      simpl in Hinc. injection Hinc as <-. simpl in Hsum.
      destruct (g s) as [c |] eqn:Hc; [| discriminate].
      destruct (sumCosts l') as [t |] eqn:Ht; [| discriminate].
      injection Hsum as <-.
      assert (Hks : Sigs sig !! k = Some s).
      { rewrite <- (Nat.add_0_r k), <- lookup_drop, Hs. reflexivity. }
      assert (Hig : costs !! i = Some g).
      { rewrite <- (Nat.add_0_r i), <- lookup_drop, Hg. reflexivity. }
      destruct (Forall2_lookup_r _ _ _ _ _ Hrel Hig) as (f & Hf & Hfg).
      rewrite (index_lookup _ _ _ Hks), bind_ret.
      rewrite (index_lookup _ _ _ Hf), bind_ret.
      apply charges_bind; [apply Hfg, Hc | intros _].
      apply (IH (S i) (S k) l' t); [lia | | exact Ht].
      rewrite <- (tail_drop costs i), Hg.
      rewrite <- (tail_drop (Sigs sig) k), Hs. exact Hinc'.
    + replace total with (0 + total) by lia.
      apply (IH (S i) k l total); [lia | | exact Hsum].
      rewrite <- (tail_drop costs i). exact Hinc.
Qed.

Lemma consumeSignatureVerificationGas_ed25519 sig bz :
  consumeSignatureVerificationGas sig (PubKeyEd25519 bz)
  = (run ConsumeGas ed25519VerifyCost "ante verify: ed25519"; ret okResult).
Proof. reflexivity. Qed.

Lemma consumeSignatureVerificationGas_secp256k1 sig bz :
  consumeSignatureVerificationGas sig (PubKeySecp256k1 bz)
  = (run ConsumeGas secp256k1VerifyCost "ante verify: secp256k1"; ret okResult).
Proof. reflexivity. Qed.

Lemma consumeSignatureVerificationGas_multisig sig K pks :
  consumeSignatureVerificationGas sig (PubKeyMultisigThreshold K pks)
  = (do ms <- MustUnmarshalBinaryBare sig;
     run consumeMultisignatureVerificationGas ms pks;
     ret okResult).
Proof. reflexivity. Qed.

Lemma consumeSignatureVerificationGas_other sig n bz :
  consumeSignatureVerificationGas sig (PubKeyOther n bz)
  = (let t := ToLower n in
     if Contains t "ed25519" then
       run ConsumeGas ed25519VerifyCost "ante verify: ed25519"; ret okResult
     else if Contains t "secp256k1" then
       run ConsumeGas secp256k1VerifyCost "ante verify: secp256k1"; ret okResult
     else if Contains t "multisigthreshold" then
       do _ <- MustUnmarshalBinaryBare sig; panic (RuntimeError "interface conversion")
     else ret (ErrInvalidPubKey ("unrecognized public key type: " +:+ t))).
Proof. reflexivity. Qed.

Lemma members_charge_cost (pks : list PubKey) :
  Forall (fun pk => forall sig c, verificationCost pk sig = Some c ->
                      charges (consumeSignatureVerificationGas sig pk) c) pks ->
  Forall2 (fun f g => forall s c, g s = Some c -> charges (f s) c)
          (map (fun pk s => consumeSignatureVerificationGas s pk) pks)
          (map verificationCost pks).
Proof.
  induction 1 as [| pk pks Hpk _ IH]; simpl; constructor; [| exact IH].
  intros s c Hc. apply Hpk, Hc.
Qed.

(** The cost lookup charges the verification cost of the key. *)
Lemma consumeSignatureVerificationGas_charges (pubkey : PubKey) :
  forall sig c, verificationCost pubkey sig = Some c ->
    charges (consumeSignatureVerificationGas sig pubkey) c.
Proof.
  induction pubkey as [bz | bz | K pks IH | n bz] using PubKey_members_ind;
    intros sig c Hc.
  - injection Hc as <-. rewrite consumeSignatureVerificationGas_ed25519.
    replace ed25519VerifyCost with (ed25519VerifyCost + 0) at 2 by lia.
    apply charges_bind; [apply ConsumeGas_charges | intros _; apply charges_ret].
  - injection Hc as <-. rewrite consumeSignatureVerificationGas_secp256k1.
    replace secp256k1VerifyCost with (secp256k1VerifyCost + 0) at 2 by lia.
    apply charges_bind; [apply ConsumeGas_charges | intros _; apply charges_ret].
  - rewrite consumeSignatureVerificationGas_multisig.
    simpl in Hc. unfold MustUnmarshalBinaryBare.
    destruct (unmarshalMultisignature sig) as [ms |]; [| discriminate].
    rewrite bind_ret.
    destruct (includedFrom _ _ _) as [l |] eqn:Hinc; [| discriminate].
    replace c with (c + 0) by lia.
    apply charges_bind; [| intros _; apply charges_ret].
    unfold consumeMultisignatureVerificationGas.
    apply (multisigLoop_charges _ (map verificationCost pks) ms
             (members_charge_cost pks IH) _ 0%nat 0%nat l c);
      [reflexivity | exact Hinc | exact Hc].
  - rewrite consumeSignatureVerificationGas_other. simpl in Hc. simpl.
    destruct (Contains (ToLower n) "ed25519").
    { injection Hc as <-.
      replace ed25519VerifyCost with (ed25519VerifyCost + 0) at 2 by lia.
      apply charges_bind; [apply ConsumeGas_charges | intros _; apply charges_ret]. }
    destruct (Contains (ToLower n) "secp256k1").
    { injection Hc as <-.
      replace secp256k1VerifyCost with (secp256k1VerifyCost + 0) at 2 by lia.
      apply charges_bind; [apply ConsumeGas_charges | intros _; apply charges_ret]. }
    destruct (Contains (ToLower n) "multisigthreshold"); [discriminate |].
    injection Hc as <-. apply charges_ret.
Qed.

Lemma includedFrom_map {A B} (f : A -> B) bits (members : list A) sigs :
  includedFrom bits (map f members) sigs
  = option_map (map (fun p => (f p.1, p.2))) (includedFrom bits members sigs).
Proof.
  revert members sigs. induction bits as [| b bits IH]; intros members sigs;
    [reflexivity |].
  simpl. destruct b.
  - destruct sigs as [| s sigs]; [reflexivity |].
    destruct members as [| x members]; [reflexivity |]. simpl.
    rewrite IH. destruct (includedFrom bits members sigs); reflexivity.
  - rewrite <- IH. destruct members; reflexivity.
Qed.

Lemma includedFrom_zip {A} bits (members : list A) sigs :
  (countSet bits <= length sigs)%nat ->
  (forall i, bits !! i = Some true -> (i < length members)%nat) ->
  includedFrom bits members sigs = Some (zip (setMembers bits members) sigs).
Proof.
  revert members sigs. induction bits as [| b bits IH]; intros members sigs Hn Hin;
    [reflexivity |].
  simpl in *. destruct b.
  - destruct sigs as [| s sigs]; [simpl in Hn; lia |].
    destruct members as [| x members]; [specialize (Hin 0%nat eq_refl); simpl in Hin; lia |].
    rewrite IH; [reflexivity | simpl in Hn; lia |].
    intros i Hi. specialize (Hin (S i) Hi). simpl in Hin. lia.
  - destruct members as [| x members]; simpl.
    + rewrite IH; [| lia |].
      * destruct bits; reflexivity.
      * intros i Hi. specialize (Hin (S i) Hi). simpl in Hin. lia.
    + apply IH; [lia |].
      intros i Hi. specialize (Hin (S i) Hi). simpl in Hin. lia.
Qed.

Lemma sumCosts_members (l : list (PubKey * bytes)) (costs : list Z) :
  Forall2 (fun p c => verificationCost p.1 p.2 = Some c) l costs ->
  sumCosts (map (fun p => (verificationCost p.1, p.2)) l) = Some (totalCost costs).
Proof.
  induction 1 as [| [pk s] c l costs Hc _ IH]; [reflexivity |].
  simpl in *. rewrite Hc, IH. reflexivity.
Qed.

Lemma charges_infinite {A} (f : M GasMeter A) c m :
  charges f c -> kind m = Infinite -> exists r, f m = Ret r (addGas m c).
Proof.
  intros Hf Hk. destruct (Hf m) as [Hr | [Hinf _]]; [exact Hr | contradiction].
Qed.

Lemma sumCosts_undefined (l : list (PubKey * bytes)) :
  Exists (fun p => verificationCost p.1 p.2 = None) l ->
  sumCosts (map (fun p => (verificationCost p.1, p.2)) l) = None.
Proof.
  induction 1 as [[pk s] l Hc | [pk s] l _ IH]; simpl in *.
  - rewrite Hc. reflexivity.
  - rewrite IH. destruct (verificationCost pk s); reflexivity.
Qed.

(** The loop panics when a set bit has no partial signature or no member
    left, or when the charge of an included member panics. *)
Lemma multisigLoop_undefined (charge : list (bytes -> M GasMeter Result))
    (costs : list (bytes -> option Z)) (sig : Multisignature) :
  Forall2 (fun f g => forall s, g s = None ->
             forall m, exists p m', f s m = Panic p m') charge costs ->
  forall n i k,
    (i + n = length (BitArray sig))%nat ->
    match includedFrom (drop i (BitArray sig)) (drop i costs) (drop k (Sigs sig)) with
    | None => True
    | Some l => sumCosts l = None
    end ->
    forall m, exists p m', multisigLoop charge sig n i k m = Panic p m'.
Proof.
  intros Hrel. induction n as [| n IH]; intros i k Hlen Hinc m.
  - replace i with (length (BitArray sig)) in Hinc by lia.
    rewrite drop_all in Hinc. simpl in Hinc. discriminate Hinc.
  - destruct (lookup_lt_is_Some_2 (BitArray sig) i) as [b Hb]; [lia |].
    rewrite (drop_S _ _ _ Hb) in Hinc. simpl in Hinc. simpl.
    unfold GetIndex. rewrite Hb. simpl. destruct b.
    + destruct (drop k (Sigs sig)) as [| s sigs'] eqn:Hs.
      { assert (Hk : Sigs sig !! k = None).
        { apply lookup_ge_None. apply (f_equal length) in Hs.
          rewrite length_drop in Hs. simpl in Hs. lia. }
        unfold bind, index. rewrite Hk. eexists _, _. reflexivity. }
      assert (Hks : Sigs sig !! k = Some s).
      { rewrite <- (Nat.add_0_r k), <- lookup_drop, Hs. reflexivity. }
      rewrite (index_lookup _ _ _ Hks), bind_ret.
      destruct (drop i costs) as [| g costs'] eqn:Hg.
      { assert (Hi : charge !! i = None).
        { apply lookup_ge_None. pose proof (Forall2_length _ _ _ Hrel) as Hl.
          apply (f_equal length) in Hg. rewrite length_drop in Hg. simpl in Hg.
          assert (Hle : (length costs <= i)%nat) by lia.
          exact (eq_ind_r (fun n => (n <= i)%nat) Hle Hl). }
        unfold bind, index. rewrite Hi. eexists _, _. reflexivity. }
      assert (Hig : costs !! i = Some g).
      { rewrite <- (Nat.add_0_r i), <- lookup_drop, Hg. reflexivity. }
      destruct (Forall2_lookup_r _ _ _ _ _ Hrel Hig) as (f & Hf & Hfg).
      rewrite (index_lookup _ _ _ Hf), bind_ret.
      unfold bind at 1. destruct (f s m) as [r m1 | p m1] eqn:Hfm;
        [| eexists _, _; reflexivity].
      apply (IH (S i) (S k)); [lia |].
      rewrite <- (tail_drop costs i), Hg, <- (tail_drop (Sigs sig) k), Hs. simpl.
      destruct (includedFrom _ costs' sigs') as [l' |]; [| exact I].
      simpl in Hinc. destruct (g s) as [c |] eqn:Hc.
      * destruct (sumCosts l'); [discriminate Hinc | reflexivity].
      * destruct (Hfg s Hc m) as (p & m' & Hp). congruence.
    + apply (IH (S i) k); [lia |].
      rewrite <- (tail_drop costs i). exact Hinc.
Qed.

Lemma members_undefined (pks : list PubKey) :
  Forall (fun pk => forall sig, verificationCost pk sig = None ->
            forall m, exists p m', consumeSignatureVerificationGas sig pk m = Panic p m')
         pks ->
  Forall2 (fun f g => forall s, g s = None ->
             forall m, exists p m', f s m = Panic p m')
          (map (fun pk s => consumeSignatureVerificationGas s pk) pks)
          (map verificationCost pks).
Proof.
  induction 1 as [| pk pks Hpk _ IH]; simpl; constructor; [| exact IH].
  intros s Hc. apply Hpk, Hc.
Qed.

(** The cost of a key is undefined only where the cost lookup panics. *)
Lemma consumeSignatureVerificationGas_undefined (pubkey : PubKey) :
  forall sig, verificationCost pubkey sig = None ->
    forall m, exists p m', consumeSignatureVerificationGas sig pubkey m = Panic p m'.
Proof.
  induction pubkey as [bz | bz | K pks IH | n bz] using PubKey_members_ind;
    intros sig Hc m.
  - discriminate Hc.
  - discriminate Hc.
  - rewrite consumeSignatureVerificationGas_multisig.
    simpl in Hc. unfold MustUnmarshalBinaryBare.
    destruct (unmarshalMultisignature sig) as [ms |];
      [| eexists _, _; reflexivity].
    rewrite bind_ret.
    destruct (multisigLoop_undefined _ (map verificationCost pks) ms
                (members_undefined pks IH) (Size (BitArray ms)) 0%nat 0%nat
                eq_refl) with (m := m) as (p & m' & Hp).
    { change (drop 0 (BitArray ms)) with (BitArray ms).
      change (drop 0 (map verificationCost pks)) with (map verificationCost pks).
      change (drop 0 (Sigs ms)) with (Sigs ms).
      destruct (includedFrom _ _ _); [exact Hc | exact I]. }
    unfold consumeMultisignatureVerificationGas, bind. rewrite Hp.
    eexists _, _. reflexivity.
  - rewrite consumeSignatureVerificationGas_other. simpl in Hc. simpl.
    destruct (Contains (ToLower n) "ed25519"); [discriminate Hc |].
    destruct (Contains (ToLower n) "secp256k1"); [discriminate Hc |].
    destruct (Contains (ToLower n) "multisigthreshold"); [| discriminate Hc].
    unfold bind, MustUnmarshalBinaryBare.
    destruct (unmarshalMultisignature sig); eexists _, _; reflexivity.
Qed.

(** C3 (amended). consumeMultisignatureVerificationGas does not compare the
    number of partial signatures with the number of set bits, and it
    rejects nothing. With at least as many partial signatures as set bits,
    and a member key for every set bit, it pairs exactly the member keys
    whose bit is set with the partial signatures at their rank, in bitmap
    order; partial signatures beyond the set bits are not looked at. When
    the cost of every such pair is defined, it charges the sum of these
    costs, and on the infinite meter it returns with that sum consumed.
    When the cost of some pair is undefined, it panics instead. The cost of
    a pair is what the member's own lookup charges for its partial
    signature, and it is undefined only where that lookup panics, as for a
    multisig member whose partial signature is malformed. *)
Theorem multisig_gas_sums_included_members (ms : Multisignature)
    (pks : list PubKey) :
  (countSet (BitArray ms) <= length (Sigs ms))%nat ->
  (forall i, BitArray ms !! i = Some true -> (i < length pks)%nat) ->
  let included := zip (setMembers (BitArray ms) pks) (Sigs ms) in
  (forall costs,
     Forall2 (fun p c => verificationCost p.1 p.2 = Some c) included costs ->
     charges (consumeMultisignatureVerificationGas ms pks) (totalCost costs)
     /\ forall m, kind m = Infinite ->
          consumeMultisignatureVerificationGas ms pks m
            = Ret tt (addGas m (totalCost costs)))
  /\ (Exists (fun p => verificationCost p.1 p.2 = None) included ->
      forall m, exists p m',
        consumeMultisignatureVerificationGas ms pks m = Panic p m')
  /\ (forall p, p ∈ included ->
        match verificationCost p.1 p.2 with
        | Some c => charges (consumeSignatureVerificationGas p.2 p.1) c
        | None => forall m, exists q m',
                    consumeSignatureVerificationGas p.2 p.1 m = Panic q m'
        end).
Proof.
  intros Hn Hin included.
  assert (Hinc : includedFrom (BitArray ms) (map verificationCost pks) (Sigs ms)
                 = Some (map (fun p => (verificationCost p.1, p.2)) included)).
  { rewrite includedFrom_map, (includedFrom_zip _ _ _ Hn Hin). reflexivity. }
  split; [| split].
  - intros costs Hcosts.
    assert (Hch : charges (consumeMultisignatureVerificationGas ms pks)
                          (totalCost costs)).
    { unfold consumeMultisignatureVerificationGas.
      apply (multisigLoop_charges _ (map verificationCost pks) ms) with (l :=
               map (fun p => (verificationCost p.1, p.2)) included).
      - apply members_charge_cost. apply Forall_forall. intros pk _.
        apply consumeSignatureVerificationGas_charges.
      - reflexivity.
      - exact Hinc.
      - apply sumCosts_members, Hcosts. }
    split; [exact Hch |].
    intros m Hk. destruct (charges_infinite _ _ _ Hch Hk) as [[] Hr]. exact Hr.
  - intros Hex m. unfold consumeMultisignatureVerificationGas.
    apply (multisigLoop_undefined _ (map verificationCost pks) ms).
    + apply members_undefined. apply Forall_forall. intros pk _.
      apply consumeSignatureVerificationGas_undefined.
    + reflexivity.
    + change (drop 0 (BitArray ms)) with (BitArray ms).
      change (drop 0 (map verificationCost pks)) with (map verificationCost pks).
      change (drop 0 (Sigs ms)) with (Sigs ms).
      rewrite Hinc. apply sumCosts_undefined, Hex.
  - intros p _. destruct (verificationCost p.1 p.2) as [c |] eqn:Hc.
    + apply consumeSignatureVerificationGas_charges, Hc.
    + apply consumeSignatureVerificationGas_undefined, Hc.
Qed.

Lemma verificationCost_multisig K pks sig :
  verificationCost (PubKeyMultisigThreshold K pks) sig
  = match unmarshalMultisignature sig with
    | None => None
    | Some ms =>
      match includedFrom (BitArray ms) (map verificationCost pks) (Sigs ms) with
      | None => None
      | Some l => sumCosts l
      end
    end.
Proof. reflexivity. Qed.

Lemma consumeSignatureVerificationGas_multisig_ok sig K pks m r m' :
  consumeSignatureVerificationGas sig (PubKeyMultisigThreshold K pks) m = Ret r m' ->
  r = okResult.
Proof.
  rewrite consumeSignatureVerificationGas_multisig. unfold bind.
  destruct (MustUnmarshalBinaryBare sig m) as [ms m1 |]; [| discriminate].
  destruct (consumeMultisignatureVerificationGas ms pks m1); [| discriminate].
  unfold ret. congruence.
Qed.

(** C10. The verification gas of a multisig key is computed recursively:
    its cost is the sum, over the members whose bit is set, of the cost of
    the member's own key for its partial signature, so a member that is a
    multisig key contributes the sum over its own included members. The
    result of a member's lookup is dropped: an unrecognized member key
    charges nothing, and the lookup of the multisig key returns OK
    whenever it returns. *)
Theorem multisig_gas_is_recursive (K : Z) (pks : list PubKey) (sig : bytes) :
  (forall m r m',
     consumeSignatureVerificationGas sig (PubKeyMultisigThreshold K pks) m = Ret r m' ->
     r = okResult)
  /\ (forall ms l, unmarshalMultisignature sig = Some ms ->
        includedFrom (BitArray ms) pks (Sigs ms) = Some l ->
        verificationCost (PubKeyMultisigThreshold K pks) sig
          = sumCosts (map (fun p => (verificationCost p.1, p.2)) l))
  /\ (forall c m, verificationCost (PubKeyMultisigThreshold K pks) sig = Some c ->
        consumeSignatureVerificationGas sig (PubKeyMultisigThreshold K pks) m
          = Ret okResult (addGas m c)
        \/ (kind m <> Infinite
            /\ exists d m',
                 consumeSignatureVerificationGas sig (PubKeyMultisigThreshold K pks) m
                   = Panic (ErrorOutOfGas d) m'))
  /\ (forall n bz s m,
        Contains (ToLower n) "ed25519" = false ->
        Contains (ToLower n) "secp256k1" = false ->
        Contains (ToLower n) "multisigthreshold" = false ->
        verificationCost (PubKeyOther n bz) s = Some 0
        /\ consumeSignatureVerificationGas s (PubKeyOther n bz) m
             = Ret (ErrInvalidPubKey ("unrecognized public key type: " +:+ ToLower n)) m).
Proof.
  split; [| split; [| split]].
  - intros m r m'. apply consumeSignatureVerificationGas_multisig_ok.
  - intros ms l Hms Hl.
    rewrite verificationCost_multisig, Hms, includedFrom_map, Hl. reflexivity.
  - intros c m Hc.
    destruct (consumeSignatureVerificationGas_charges _ _ _ Hc m)
      as [[r Hr] | Hoog]; [left | right; exact Hoog].
    rewrite Hr. f_equal.
    apply (consumeSignatureVerificationGas_multisig_ok _ _ _ _ _ _ Hr).
  - intros n bz s m H1 H2 H3.
    rewrite consumeSignatureVerificationGas_other. simpl.
    rewrite H1, H2, H3. split; reflexivity.
Qed.

(** ** Simulate mode *)

Lemma processSig_simulate_recognized (acc : Account) (sig : StdSignature)
    (signBytes : bytes) (pk : PubKey) (c : Z) (m : GasMeter) :
  processPubKey acc sig true = inl pk ->
  consumeSignatureVerificationGas (Signature sig) pk m = Ret okResult (addGas m c) ->
  processSig acc sig signBytes true m
    = Ret (bumpSequence acc pk, Some (bumpSequence acc pk), okResult) (addGas m c).
Proof.
  intros Hpk Hgas. unfold processSig. rewrite Hpk. unfold bind. rewrite Hgas.
  reflexivity.
Qed.

(** C8 (amended). In simulate mode processSig never verifies signature
    bytes: its outcome is the same whatever the verification function.
    With no stored public key the fixed secp256k1 placeholder key is
    resolved, and on the infinite meter of simulate mode processSig then
    succeeds for any signature bytes and charges the secp256k1 cost, 100
    units, above the ed25519 cost of 59; with a stored ed25519 or secp256k1
    key it succeeds for any signature bytes as well. *)
Theorem simulate_skips_signature_verification (acc : Account) (sig : StdSignature)
    (signBytes : bytes) (m : GasMeter) :
  (forall V, @processSig (withVerifyBytes E V) acc sig signBytes true m
             = processSig acc sig signBytes true m)
  /\ (GetPubKey acc = None ->
        processPubKey acc sig true = inl dummySecp256k1Pubkey
        /\ (kind m = Infinite ->
              processSig acc sig signBytes true m
                = Ret (bumpSequence acc dummySecp256k1Pubkey,
                       Some (bumpSequence acc dummySecp256k1Pubkey), okResult)
                      (addGas m secp256k1VerifyCost)))
  /\ (forall bz, kind m = Infinite ->
        (GetPubKey acc = Some (PubKeySecp256k1 bz) ->
           processSig acc sig signBytes true m
             = Ret (bumpSequence acc (PubKeySecp256k1 bz),
                    Some (bumpSequence acc (PubKeySecp256k1 bz)), okResult)
                   (addGas m secp256k1VerifyCost))
        /\ (GetPubKey acc = Some (PubKeyEd25519 bz) ->
              processSig acc sig signBytes true m
                = Ret (bumpSequence acc (PubKeyEd25519 bz),
                       Some (bumpSequence acc (PubKeyEd25519 bz)), okResult)
                      (addGas m ed25519VerifyCost)))
  /\ secp256k1VerifyCost = 100 /\ ed25519VerifyCost = 59
  /\ ed25519VerifyCost < secp256k1VerifyCost.
Proof.
  assert (Hgas : forall amount d, kind m = Infinite ->
            (run ConsumeGas amount d; ret okResult) m = Ret okResult (addGas m amount)).
  { intros amount d Hk. unfold bind, ConsumeGas, addGas, ret. rewrite Hk. reflexivity. }
  split; [| split; [| split]].
  - intros V. reflexivity.
  - intros Hnone. split.
    + unfold processPubKey. rewrite Hnone. reflexivity.
    + intros Hk. apply processSig_simulate_recognized.
      * unfold processPubKey. rewrite Hnone. reflexivity.
      * apply (Hgas _ _ Hk).
  - intros bz Hk. split; intros Hkey; apply processSig_simulate_recognized;
      try (unfold processPubKey; rewrite Hkey; reflexivity); apply (Hgas _ _ Hk).
  - repeat split.
Qed.

(** ** Sequence increment and replay *)


Lemma getSignerAccs_inv (addrs : list AccAddress) (s : State) :
  exists accs res,
    getSignerAccs addrs s = Ret (accs, res) s
    /\ (IsOK res = true ->
        Forall2 (fun a acc => accounts s !! a = Some acc) addrs accs).
Proof.
  induction addrs as [| a addrs IH]; simpl.
  - eexists _, _. split; [reflexivity |]. intros _. constructor.
  - unfold bind, GetAccount. destruct (accounts s !! a) as [acc |] eqn:Ha.
    + destruct IH as (accs & res & Hrun & Hok). rewrite Hrun.
      destruct (IsOK res) eqn:Hres.
      * eexists _, _. split; [reflexivity |]. intros _.
        constructor; [exact Ha | exact (Hok eq_refl)].
      * eexists _, _. split; [reflexivity |]. congruence.
    + eexists _, _. split; [reflexivity |]. discriminate.
Qed.

Lemma getSignerAccs_present (addrs : list AccAddress) (s : State) :
  Forall (fun a => is_Some (accounts s !! a)) addrs ->
  exists accs,
    getSignerAccs addrs s = Ret (accs, okResult) s
    /\ Forall2 (fun a acc => accounts s !! a = Some acc) addrs accs.
Proof.
  induction 1 as [| a addrs [acc Ha] _ (accs & Hrun & Hall)]; simpl.
  - eexists. split; [reflexivity | constructor].
  - unfold bind, GetAccount. rewrite Ha, Hrun. simpl.
    eexists. split; [reflexivity |]. constructor; assumption.
Qed.

Lemma validateFrom_success {S} ctx accs sigs (s s' : S) n i res :
  validateFrom ctx accs sigs n i s = Ret res s' ->
  IsOK res = true ->
  (i + n <= length accs)%nat ->
  forall j acc, (i <= j < i + n)%nat -> accs !! j = Some acc ->
    exists sig, sigs !! j = Some sig /\ conforms ctx acc sig.
Proof.
  revert i. induction n as [| n IH]; intros i Hrun Hok Hlen j acc Hj Hacc; [lia |].
  simpl in Hrun. unfold bind in Hrun.
  destruct (lookup_lt_is_Some_2 accs i) as [a Ha]; [lia |].
  destruct (sigs !! i) as [g |] eqn:Hg.
  - rewrite (validateSigner_at _ _ _ _ _ _ _ Ha Hg) in Hrun.
    destruct (decide (conforms ctx a g)) as [Hc | Hc].
    + destruct (decide (j = i)) as [-> | Hne].
      * exists g. split; [exact Hg | congruence].
      * apply (IH (Datatypes.S i)); try assumption; lia.
    + injection Hrun as <- <-. discriminate.
  - exfalso. unfold validateSigner, bind, index in Hrun. rewrite Hg, Ha in Hrun.
    destruct (BlockHeight ctx =? 0); simpl in Hrun; discriminate.
Qed.

Lemma validateSigner_state {S} ctx accs sigs i (s : S) :
  (exists x, validateSigner ctx accs sigs i s = Ret x s)
  \/ (exists p, validateSigner ctx accs sigs i s = Panic p s).
Proof.
  unfold validateSigner, bind, index, ret.
  destruct (BlockHeight ctx =? 0); simpl.
  - destruct (sigs !! i) as [g |]; [| right; eexists; reflexivity].
    destruct (negb (AccountNumber g =? 0)); [left; eexists; reflexivity |].
    destruct (accs !! i) as [a |]; [| right; eexists; reflexivity].
    left. eexists. reflexivity.
  - destruct (accs !! i) as [a |]; [| right; eexists; reflexivity].
    destruct (sigs !! i) as [g |]; [| right; eexists; reflexivity].
    destruct (negb (GetAccountNumber a =? AccountNumber g));
      left; eexists; reflexivity.
Qed.

Lemma validateFrom_state {S} ctx accs sigs n i (s s' : S) res :
  validateFrom ctx accs sigs n i s = Ret res s' -> s' = s.
Proof.
  revert i. induction n as [| n IH]; intros i; simpl.
  - unfold ret. congruence.
  - unfold bind.
    destruct (validateSigner_state ctx accs sigs i s) as [[x Hx] | [p Hp]].
    + rewrite Hx. destruct x as [r |]; [unfold ret; congruence | apply IH].
    + rewrite Hp. discriminate.
Qed.

Lemma deductFeeStage_inv (stdTx : StdTx Msg) (accs accs2 : list Account)
    (s s2 : State) :
  deductFeeStage stdTx accs s = Ret (inl accs2) s2 ->
  accounts s2 = accounts s /\ Forall2 sameNonce accs accs2.
Proof.
  assert (Hrefl : forall l, Forall2 sameNonce l l).
  { intros l. apply Forall2_same_length_lookup_2; [reflexivity |].
    intros i x y Hx Hy. assert (x = y) by congruence. subst. repeat split. }
  unfold deductFeeStage, bind, index, ret.
  destruct (negb (IsZero (Amount (Fee stdTx)))).
  - destruct accs as [| acc0 rest]; simpl; [discriminate |].
    unfold deductFees.
    destruct (SafeSub (GetCoins acc0) (Amount (Fee stdTx))) as [newCoins hasNeg].
    destruct hasNeg; simpl; [discriminate |].
    intros H. injection H as <- <-. split; [reflexivity |].
    constructor; [repeat split | apply Hrefl].
  - intros H. injection H as <- <-. split; [reflexivity | apply Hrefl].
Qed.




Lemma NewAnteHandler_success (ctx : Context) (stdTx : StdTx Msg)
    (simulate : bool) (s s1 : State) c r :
  NewAnteHandler ctx (TxStd stdTx) simulate s = Ret (c, r, false) s1 ->
  (IsCheckTx ctx && negb simulate = true ->
     IsOK (ensureSufficientMempoolFees ctx stdTx) = true)
  /\ exists m c0,
       CtxGasMeter (setGasMeter simulate ctx (Gas (Fee stdTx))) = Some m
       /\ anteBody ctx (setGasMeter simulate ctx (Gas (Fee stdTx))) stdTx simulate
            (mkState m (accounts s) (collectedFees s)) = Ret (c0, r, false) s1.
Proof.
  intros H.
  assert (Hmet : meteredAnte ctx stdTx simulate s = Ret (c, r, false) s1
                 /\ (IsCheckTx ctx && negb simulate = true ->
                     IsOK (ensureSufficientMempoolFees ctx stdTx) = true)).
  { unfold NewAnteHandler in H.
    destruct (IsCheckTx ctx && negb simulate); [| split; [exact H | discriminate]].
    destruct (IsOK (ensureSufficientMempoolFees ctx stdTx)); simpl in H;
      [split; [exact H | reflexivity] | discriminate]. }
  destruct Hmet as [Hmet Hmem]. split; [exact Hmem |].
  unfold meteredAnte in Hmet.
  destruct (CtxGasMeter (setGasMeter simulate ctx (Gas (Fee stdTx)))) as [m |];
    [| discriminate].
  destruct (anteBody _ _ _ _ _) as [[[c0 r0] a0] sB | p sB] eqn:Hbody.
  - simpl in Hmet. injection Hmet as _ Hr Ha Hs. subst r0 a0 sB.
    exists m, c0. split; [reflexivity | exact Hbody].
  - destruct p; simpl in Hmet; discriminate.
Qed.


(** ** Further properties of the handler *)

(** getSignerAccs loads the accounts in signer order and changes nothing:
    when every address has an account it returns them with an OK result,
    otherwise it returns no account and the unknown-address error of the
    first address without an account. *)
Theorem getSignerAccs_first_missing (addrs : list AccAddress) (s : State) :
  (Forall (fun a => is_Some (accounts s !! a)) addrs ->
     exists accs,
       getSignerAccs addrs s = Ret (accs, okResult) s
       /\ Forall2 (fun a acc => accounts s !! a = Some acc) addrs accs)
  /\ (forall i a,
        addrs !! i = Some a -> accounts s !! a = None ->
        (forall j a', (j < i)%nat -> addrs !! j = Some a' ->
                      is_Some (accounts s !! a')) ->
        getSignerAccs addrs s = Ret ([], ErrUnknownAddress (addrString a)) s).
Proof.
  split; [apply getSignerAccs_present |].
  induction addrs as [| b addrs IH]; intros i a Hi Hnone Hbefore;
    [discriminate |].
  simpl. unfold bind, GetAccount. destruct i as [| i]; simpl in Hi.
  - injection Hi as ->. rewrite Hnone. reflexivity.
  - destruct (Hbefore 0%nat b ltac:(lia) eq_refl) as [acc Hacc]. rewrite Hacc.
    rewrite (IH i a Hi Hnone); [reflexivity |].
    intros j a' Hj Hl. apply (Hbefore (S j) a'); [lia | exact Hl].
Qed.

Lemma validateFrom_missing_signature {S} ctx accs sigs (s : S) n i :
  (i + n <= length accs)%nat -> (length sigs < i + n)%nat -> (i <= length sigs)%nat ->
  (forall j acc sig, (i <= j)%nat -> accs !! j = Some acc -> sigs !! j = Some sig ->
     conforms ctx acc sig) ->
  validateFrom ctx accs sigs n i s = Panic (RuntimeError "index out of range") s.
Proof.
  revert i. induction n as [| n IH]; intros i Ha Hs Hi Hc; [lia |].
  simpl. unfold bind.
  destruct (lookup_lt_is_Some_2 accs i) as [acc Hacc]; [lia |].
  destruct (sigs !! i) as [sig |] eqn:Hsig.
  - rewrite (validateSigner_at _ _ _ _ _ _ _ Hacc Hsig).
    destruct (decide (conforms ctx acc sig)) as [_ | Hbad].
    + apply IH; try lia.
      * apply lookup_lt_Some in Hsig. lia.
      * intros j a g Hj. apply Hc. lia.
    + exfalso. apply Hbad. apply (Hc i); [lia | assumption | assumption].
  - unfold validateSigner, bind, index, ret. rewrite Hsig, Hacc.
    destruct (BlockHeight ctx =? 0); reflexivity.
Qed.

(** With fewer signature entries than accounts, validateAccNumAndSequence
    does not return once the signers that do have an entry conform: it
    panics with an index error at the first account without an entry. *)
Theorem validateAccNumAndSequence_missing_signature {S} ctx accs sigs (s : S) :
  (length sigs < length accs)%nat ->
  (forall j acc sig, accs !! j = Some acc -> sigs !! j = Some sig ->
     conforms ctx acc sig) ->
  validateAccNumAndSequence ctx accs sigs s
  = Panic (RuntimeError "index out of range") s.
Proof.
  intros Hlen Hc. unfold validateAccNumAndSequence.
  apply validateFrom_missing_signature; try (simpl; lia).
  intros j acc sig _. apply Hc.
Qed.

(** What processSig does to the account object, whatever the outcome: the
    address, the coins and the account number stay, a stored public key is
    never replaced, and the sequence is incremented exactly when the result
    is OK, which is also exactly when the account is returned. *)
Theorem processSig_account_effects (acc : Account) (sig : StdSignature)
    (signBytes : bytes) (simulate : bool) (m m' : GasMeter) obj upd res :
  processSig acc sig signBytes simulate m = Ret (obj, upd, res) m' ->
  GetAddress obj = GetAddress acc
  /\ GetCoins obj = GetCoins acc
  /\ GetAccountNumber obj = GetAccountNumber acc
  /\ (forall pk, GetPubKey acc = Some pk -> GetPubKey obj = Some pk)
  /\ (IsOK res = true ->
        upd = Some obj /\ GetSequence obj = wrap64 (GetSequence acc + 1)
        /\ is_Some (GetPubKey obj))
  /\ (IsOK res = false -> upd = None /\ GetSequence obj = GetSequence acc).
Proof.
  unfold processSig, bind, ret. intros H.
  destruct (processPubKey acc sig simulate) as [pk | r] eqn:Hpk.
  - assert (Hkeep : forall pk0, GetPubKey acc = Some pk0 -> pk = pk0).
    { intros pk0 Hs. unfold processPubKey in Hpk. rewrite Hs in Hpk.
      destruct simulate; congruence. }
    destruct (consumeSignatureVerificationGas (Signature sig) pk m) as [r g |];
      [| discriminate].
    assert (Hkept : forall pk0, GetPubKey acc = Some pk0 -> Some pk = Some pk0).
    { intros pk0 Hs. rewrite (Hkeep _ Hs). reflexivity. }
    destruct (IsOK r) eqn:Hr; simpl in H.
    + destruct (negb simulate && negb _).
      * injection H as <- <- <- <-.
        split_and!; try reflexivity; try exact Hkept;
          [intros Hx; vm_compute in Hx; discriminate Hx | intros _; split; reflexivity].
      * injection H as <- <- <- <-.
        split_and!; try reflexivity; try exact Hkept.
        -- intros _. split_and!; try reflexivity. eexists. reflexivity.
        -- intros Hx. vm_compute in Hx. discriminate Hx.
    + injection H as <- <- <- <-.
      split_and!; try reflexivity; try exact Hkept.
      * intros Hx. congruence.
      * intros _. split; reflexivity.
  - injection H as <- <- <- <-.
    assert (Hbad : IsOK r = false).
    { unfold processPubKey in Hpk.
      destruct simulate, (GetPubKey acc); try discriminate.
      destruct (SigPubKey sig); [| injection Hpk as <-; reflexivity].
      destruct (negb _); [injection Hpk as <-; reflexivity | discriminate]. }
    split_and!; try reflexivity.
    + intros pk Hs. exact Hs.
    + intros Hx. congruence.
    + intros _. split; reflexivity.
Qed.

(** When not simulating, processSig returns OK only for a signature that
    verifies under the resolved key, which is the account's stored key or,
    when there is none, the key of the signature entry whose address is the
    account's address. *)
Theorem processSig_success_verified (acc : Account) (sig : StdSignature)
    (signBytes : bytes) (m m' : GasMeter) obj upd res :
  processSig acc sig signBytes false m = Ret (obj, upd, res) m' ->
  IsOK res = true ->
  exists pk,
    GetPubKey obj = Some pk
    /\ VerifyBytes pk signBytes (Signature sig) = true
    /\ (GetPubKey acc = Some pk
        \/ (GetPubKey acc = None /\ SigPubKey sig = Some pk
            /\ Address pk = GetAddress acc)).
Proof.
  unfold processSig, bind, ret. intros H Hok.
  destruct (processPubKey acc sig false) as [pk | r] eqn:Hpk.
  - destruct (consumeSignatureVerificationGas (Signature sig) pk m) as [r g |];
      [| discriminate].
    destruct (IsOK r) eqn:Hr; simpl in H; [| congruence].
    destruct (VerifyBytes pk signBytes (Signature sig)) eqn:Hv; simpl in H.
    + injection H as <- <- <- <-. exists pk. split; [reflexivity |].
      split; [exact Hv |].
      unfold processPubKey in Hpk.
      destruct (GetPubKey acc) as [pk0 |]; [left; congruence | right].
      destruct (SigPubKey sig) as [pk1 |]; [| discriminate].
      destruct (bool_decide (Address pk1 = GetAddress acc)) eqn:Ha;
        simpl in Hpk; [| discriminate].
      apply bool_decide_eq_true in Ha. injection Hpk as <-. repeat split. exact Ha.
    + injection H as <- <- <- <-. discriminate.
  - injection H as <- <- <- <-.
    unfold processPubKey in Hpk.
    destruct (GetPubKey acc); try discriminate.
    destruct (SigPubKey sig); [| injection Hpk as <-; discriminate].
    destruct (negb _); [injection Hpk as <-; discriminate | discriminate].
Qed.

Lemma deductFeeStage_success (stdTx : StdTx Msg) (accs accs2 : list Account)
    (s s2 : State) :
  deductFeeStage stdTx accs s = Ret (inl accs2) s2 ->
  accounts s2 = accounts s /\ meter s2 = meter s
  /\ collectedFees s2
     = (if IsZero (Amount (Fee stdTx)) then collectedFees s
        else coinsPlus (collectedFees s) (Amount (Fee stdTx)))
  /\ Forall2 (fun a b => GetAddress b = GetAddress a /\ GetPubKey b = GetPubKey a)
             accs accs2.
Proof.
  assert (Hrefl : forall l : list Account,
            Forall2 (fun a b => GetAddress b = GetAddress a
                                /\ GetPubKey b = GetPubKey a) l l).
  { intros l. apply Forall2_same_length_lookup_2; [reflexivity |].
    intros i x y Hx Hy. assert (x = y) by congruence. subst. split; reflexivity. }
  unfold deductFeeStage, bind, index, ret.
  destruct (IsZero (Amount (Fee stdTx))); simpl.
  - intros H. injection H as <- <-. split_and!; try reflexivity. apply Hrefl.
  - destruct accs as [| acc0 rest]; simpl; [discriminate |].
    unfold deductFees.
    destruct (SafeSub (GetCoins acc0) (Amount (Fee stdTx))) as [newCoins hasNeg].
    destruct hasNeg; simpl; [discriminate |].
    intros H. injection H as <- <-. split_and!; try reflexivity.
    constructor; [split; reflexivity | apply Hrefl].
Qed.

Lemma processSigs_each (stdSigs : list StdSignature) (signBytesList : list bytes)
    (simulate : bool) (n : nat) :
  forall i accs s accs' s',
    processSigs stdSigs signBytesList simulate accs n i s = Ret (inl accs') s' ->
    ((0 < n)%nat -> (i + n <= length accs)%nat)
    /\ length accs' = length accs
    /\ collectedFees s' = collectedFees s
    /\ forall j, (i <= j < i + n)%nat ->
         exists acc sig signBytes obj upd res m m',
           accs !! j = Some acc /\ stdSigs !! j = Some sig
           /\ signBytesList !! j = Some signBytes
           /\ processSig acc sig signBytes simulate m = Ret (obj, upd, res) m'
           /\ IsOK res = true.
Proof.
  induction n as [| n IH]; intros i accs s accs' s' Hrun.
  - simpl in Hrun. unfold ret in Hrun. injection Hrun as <- <-.
    split_and!; try reflexivity; [lia | intros j Hj; lia].
  - simpl in Hrun. unfold bind, index, onMeter, SetAccount, ret in Hrun.
    destruct (accs !! i) as [acc |] eqn:Hacc; [| discriminate].
    destruct (stdSigs !! i) as [sig |] eqn:Hsig; [| discriminate].
    destruct (signBytesList !! i) as [sb |] eqn:Hsb; [| discriminate].
    destruct (processSig acc sig sb simulate (meter s)) as [[[obj upd] res] g |] eqn:Hp;
      [| discriminate].
    destruct (IsOK res) eqn:Hok; simpl in Hrun; [| discriminate].
    destruct (IH _ _ _ _ _ Hrun) as (Hlen & Hlen' & Hcol & Heach).
    rewrite length_insert in Hlen, Hlen'.
    apply lookup_lt_Some in Hacc as Hi.
    split_and!; [intros _; destruct n; [lia | specialize (Hlen ltac:(lia)); lia]
                | exact Hlen' | exact Hcol |].
    intros j Hj. destruct (decide (j = i)) as [-> | Hne].
    + exists acc, sig, sb, obj, upd, res, (meter s), g. split_and!; assumption.
    + destruct (Heach j ltac:(lia)) as (a & g0 & b & o & u & r & m0 & m1 & Ha & Hrest).
      rewrite list_lookup_insert_ne in Ha by lia.
      exists a, g0, b, o, u, r, m0, m1. split; assumption.
Qed.

Lemma anteBody_success_result (ctx newCtx : Context) (stdTx : StdTx Msg)
    (simulate : bool) (s0 s1 : State) c r :
  anteBody ctx newCtx stdTx simulate s0 = Ret (c, r, false) s1 ->
  r = mkResult CodeOK "" (Gas (Fee stdTx)) 0
  /\ exists accs accs2 sA accs3,
       c = WithSigners newCtx accs3
       /\ Forall2 (fun a acc => accounts s0 !! a = Some acc) (GetSigners stdTx) accs
       /\ (forall j acc, accs !! j = Some acc ->
             exists sig, Signatures stdTx !! j = Some sig /\ conforms ctx acc sig)
       /\ deductFeeStage stdTx accs s0 = Ret (inl accs2) sA
       /\ processSigs (Signatures stdTx)
            (getSignBytesList (ChainID newCtx) stdTx (Signatures stdTx))
            simulate accs2 (length (Signatures stdTx)) 0 sA = Ret (inl accs3) s1.
Proof.
  unfold anteBody. destruct (ValidateBasic stdTx); [unfold ret; congruence |].
  intros H. unfold bind in H.
  destruct (getSignerAccs_inv (GetSigners stdTx) s0) as (accs & res & Hget & Hall).
  rewrite Hget in H. simpl in H.
  destruct (IsOK res) eqn:Hres; simpl in H; [| unfold ret in H; congruence].
  destruct (validateAccNumAndSequence ctx accs (Signatures stdTx) s0)
    as [res2 sV |] eqn:Hval; [| discriminate].
  assert (sV = s0) by (apply (validateFrom_state _ _ _ _ _ _ _ _ Hval)). subst sV.
  destruct (IsOK res2) eqn:Hres2; simpl in H; [| unfold ret in H; congruence].
  destruct (deductFeeStage stdTx accs s0) as [[accs2 | r2] sA |] eqn:Hfee;
    [| unfold ret in H; congruence | discriminate].
  destruct (processSigs _ _ _ accs2 _ _ sA) as [[accs3 | r3] sB |] eqn:Hsigs;
    [| unfold ret in H; congruence | discriminate].
  unfold ret in H. injection H as <- <- <-. split; [reflexivity |].
  exists accs, accs2, sA, accs3. split_and!; try reflexivity; try assumption.
  - exact (Hall eq_refl).
  - intros j acc Hacc.
    apply (validateFrom_success _ _ _ _ _ _ _ _ Hval Hres2 (Nat.le_refl _) j acc);
      [| exact Hacc].
    apply lookup_lt_Some in Hacc. lia.
Qed.

(** A transaction the handler lets through has as many signature entries
    as signers, and the handler hands back the OK result with gas_wanted
    the declared gas limit, a context that points to the installed meter
    and caches one account per signer; the collected fees have grown by the
    fee amount, when it is nonzero, and by nothing else. *)
Theorem ante_success_outcome (ctx : Context) (stdTx : StdTx Msg) (simulate : bool)
    (s s' : State) c r :
  NewAnteHandler ctx (TxStd stdTx) simulate s = Ret (c, r, false) s' ->
  length (Signatures stdTx) = length (GetSigners stdTx)
  /\ r = mkResult CodeOK "" (Gas (Fee stdTx)) 0
  /\ CtxGasMeter c = Some (meter s')
  /\ length (Signers c) = length (GetSigners stdTx)
  /\ collectedFees s'
     = (if IsZero (Amount (Fee stdTx)) then collectedFees s
        else coinsPlus (collectedFees s) (Amount (Fee stdTx))).
Proof.
  intros Hrun.
  assert (Hmet : meteredAnte ctx stdTx simulate s = Ret (c, r, false) s').
  { unfold NewAnteHandler in Hrun.
    destruct (IsCheckTx ctx && negb simulate); [| exact Hrun].
    destruct (negb (IsOK (ensureSufficientMempoolFees ctx stdTx)));
      [discriminate | exact Hrun]. }
  unfold meteredAnte in Hmet.
  destruct (CtxGasMeter (setGasMeter simulate ctx (Gas (Fee stdTx)))) as [m |];
    [| discriminate].
  destruct (anteBody _ _ _ _ _) as [[[c0 r0] a0] sB | p sB] eqn:Hbody;
    [| destruct p; simpl in Hmet; discriminate].
  simpl in Hmet. injection Hmet as <- <- -> <-.
  destruct (anteBody_success_result _ _ _ _ _ _ _ _ Hbody)
    as (Hr & accs & accs2 & sA & accs3 & -> & Hget & Hconf & Hfee & Hsigs).
  destruct (deductFeeStage_success _ _ _ _ _ Hfee) as (_ & _ & Hcol & Hsame).
  destruct (processSigs_each _ _ _ _ _ _ _ _ _ Hsigs) as (Hle & Hlen3 & Hcol' & _).
  apply Forall2_length in Hget, Hsame.
  assert (Hge : (length accs <= length (Signatures stdTx))%nat).
  { destruct accs as [| a0 accsr] eqn:Ha; [simpl; lia |].
    destruct (lookup_lt_is_Some_2 (a0 :: accsr) (length accsr)) as [x Hx];
      [simpl; lia |].
    destruct (Hconf _ _ Hx) as (sig & Hsig & _).
    apply lookup_lt_Some in Hsig. simpl. lia. }
  split_and!.
  - simpl in Hle. destruct (Signatures stdTx) as [| g0 gs] eqn:Hs;
      [simpl in *; lia | specialize (Hle ltac:(simpl; lia)); simpl in *; lia].
  - exact Hr.
  - reflexivity.
  - simpl. lia.
  - rewrite Hcol', Hcol. reflexivity.
Qed.

Lemma setGasMeter_ChainID (simulate : bool) (ctx : Context) (gasLimit : Z) :
  ChainID (setGasMeter simulate ctx gasLimit) = ChainID ctx.
Proof. unfold setGasMeter. destruct (_ || _); reflexivity. Qed.

(** A transaction the handler lets through when not simulating is signed by
    every signer: the signer's account exists, the entry claims its account
    number and sequence, and the signature verifies over the sign bytes of
    exactly these numbers, the fee, the messages and the memo, under the
    account's stored key or, when it has none, under the key of the entry,
    whose address is then the account's address. *)
Theorem ante_success_is_authenticated (ctx : Context) (stdTx : StdTx Msg)
    (s s' : State) c r :
  NewAnteHandler ctx (TxStd stdTx) false s = Ret (c, r, false) s' ->
  forall i a sig,
    GetSigners stdTx !! i = Some a -> Signatures stdTx !! i = Some sig ->
    exists acc pk,
      accounts s !! a = Some acc
      /\ conforms ctx acc sig
      /\ (GetPubKey acc = Some pk
          \/ (GetPubKey acc = None /\ SigPubKey sig = Some pk
              /\ Address pk = GetAddress acc))
      /\ VerifyBytes pk
           (StdSignBytes (ChainID ctx) (AccountNumber sig) (Sequence sig)
                         (Fee stdTx) (Msgs stdTx) (Memo stdTx))
           (Signature sig) = true.
Proof.
  intros Hrun i a sig Ha Hsig.
  destruct (NewAnteHandler_success _ _ _ _ _ _ _ Hrun) as (_ & m & c0 & _ & Hbody).
  destruct (anteBody_success_result _ _ _ _ _ _ _ _ Hbody)
    as (_ & accs & accs2 & sA & accs3 & _ & Hget & Hconf & Hfee & Hsigs).
  destruct (deductFeeStage_success _ _ _ _ _ Hfee) as (_ & _ & _ & Hsame).
  destruct (processSigs_each _ _ _ _ _ _ _ _ _ Hsigs) as (_ & _ & _ & Heach).
  destruct (Forall2_lookup_l _ _ _ _ _ Hget Ha) as (acc & Hacc & Hstore).
  destruct (Hconf i acc Hacc) as (sig' & Hsig' & Hc).
  assert (sig' = sig) by congruence. subst sig'.
  destruct (Forall2_lookup_l _ _ _ _ _ Hsame Hacc) as (acc2 & Hacc2 & Haddr & Hkey).
  destruct (Heach i) as (a2 & g & sb & obj & upd & res & m0 & m1
                         & Ha2 & Hg & Hsb & Hp & Hok).
  { apply lookup_lt_Some in Hsig. lia. }
  assert (a2 = acc2) by congruence. subst a2.
  assert (g = sig) by congruence. subst g.
  unfold getSignBytesList in Hsb. rewrite list_lookup_fmap, Hsig in Hsb.
  simpl in Hsb. injection Hsb as <-. rewrite setGasMeter_ChainID in Hp.
  destruct (processSig_success_verified _ _ _ _ _ _ _ _ Hp Hok)
    as (pk & _ & Hv & Hres).
  exists acc, pk. split; [exact Hstore |]. split; [exact Hc |].
  split; [| exact Hv]. rewrite Hkey, Haddr in Hres. exact Hres.
Qed.






Lemma storeEvolved_refl (base : gmap AccAddress Account) :
  wfStore base -> storeEvolved base base.
Proof.
  intros Hwf. split; [| intros a H; exact H].
  intros a acc Ha. split; [apply (Hwf _ _ Ha) |].
  exists acc. split; [exact Ha |]. split; [reflexivity | left; reflexivity].
Qed.

Lemma processSigs_evolved (base : gmap AccAddress Account)
    (stdSigs : list StdSignature) (signBytesList : list bytes)
    (simulate : bool) (n : nat) :
  forall i accs s,
    storeEvolved base (accounts s) ->
    (forall j acc, (i <= j)%nat -> accs !! j = Some acc ->
       exists acc0, base !! GetAddress acc = Some acc0
         /\ GetAccountNumber acc = GetAccountNumber acc0
         /\ GetSequence acc = GetSequence acc0) ->
    storeEvolved base
      (accounts (stateOf (processSigs stdSigs signBytesList simulate accs n i s))).
Proof.
  induction n as [| n IH]; intros i accs s Hs Hlist; [exact Hs |].
  simpl. unfold bind, index, onMeter, SetAccount, ret.
  destruct (accs !! i) as [acc |] eqn:Hacc; [| exact Hs].
  destruct (stdSigs !! i) as [sig |]; [| exact Hs].
  destruct (signBytesList !! i) as [sb |]; [| exact Hs].
  destruct (processSig acc sig sb simulate (meter s)) as [[[obj upd] res] g |] eqn:Hp;
    [| exact Hs].
  destruct (IsOK res) eqn:Hok; simpl; [| exact Hs].
  destruct (processSig_account_effects _ _ _ _ _ _ _ _ _ Hp)
    as (Hoa & _ & Hon & _ & Hbump & _).
  destruct (Hbump Hok) as (_ & Hseq & _).
  destruct (Hlist i acc (Nat.le_refl _) Hacc) as (acc0 & Hbase & Hn0 & Hs0).
  apply IH.
  - simpl. destruct Hs as [Hev Hdom]. split.
    + intros a acc' Ha. destruct (decide (GetAddress obj = a)) as [<- | Hne].
      * rewrite lookup_insert_eq in Ha. injection Ha as <-.
        split; [reflexivity |]. exists acc0. rewrite Hoa.
        split; [exact Hbase |]. split; [congruence |]. right. congruence.
      * rewrite lookup_insert_ne in Ha by exact Hne. apply (Hev _ _ Ha).
    + intros a Ha. destruct (decide (GetAddress obj = a)) as [<- | Hne].
      * rewrite lookup_insert_eq. eexists. reflexivity.
      * rewrite lookup_insert_ne by exact Hne. apply (Hdom _ Ha).
  - intros j accj Hj Hlj. rewrite list_lookup_insert_ne in Hlj by lia.
    apply (Hlist j accj); [lia | exact Hlj].
Qed.

Lemma deductFeeStage_accounts (stdTx : StdTx Msg) (accs : list Account) (s : State) :
  accounts (stateOf (deductFeeStage stdTx accs s)) = accounts s.
Proof.
  unfold deductFeeStage, bind, index, ret, AddCollectedFees.
  destruct (negb (IsZero (Amount (Fee stdTx)))); [| reflexivity].
  destruct (accs !! 0%nat) as [acc0 |]; [| reflexivity].
  destruct (deductFees acc0 (Fee stdTx)) as [[obj upd] res].
  destruct (negb (IsOK res)); reflexivity.
Qed.

Lemma anteBody_evolved (ctx newCtx : Context) (stdTx : StdTx Msg)
    (simulate : bool) (s0 : State) :
  wfStore (accounts s0) ->
  storeEvolved (accounts s0)
    (accounts (stateOf (anteBody ctx newCtx stdTx simulate s0))).
Proof.
  intros Hwf. pose proof (storeEvolved_refl _ Hwf) as Hrefl.
  unfold anteBody. destruct (ValidateBasic stdTx); [exact Hrefl |].
  unfold bind.
  destruct (getSignerAccs_inv (GetSigners stdTx) s0) as (accs & res & Hget & Hall).
  rewrite Hget. simpl.
  destruct (IsOK res) eqn:Hres; simpl; [| exact Hrefl].
  specialize (Hall eq_refl).
  destruct (validateAccNumAndSequence ctx accs (Signatures stdTx) s0)
    as [res2 sV | p sV] eqn:Hval.
  - assert (sV = s0) by (apply (validateFrom_state _ _ _ _ _ _ _ _ Hval)). subst sV.
    destruct (IsOK res2); simpl; [| exact Hrefl].
    pose proof (deductFeeStage_accounts stdTx accs s0) as Hfa.
    destruct (deductFeeStage stdTx accs s0) as [[accs2 | r2] sA | p sA] eqn:Hfee;
      simpl in Hfa.
    + destruct (deductFeeStage_inv _ _ _ _ _ Hfee) as [_ Hsame].
      match goal with
      | |- storeEvolved _ (accounts (stateOf
             match ?o with Ret _ _ => _ | Panic _ _ => _ end)) =>
        assert (Hev : storeEvolved (accounts s0) (accounts (stateOf o)));
          [| destruct o as [[accs3 | r3] sB | p sB]; exact Hev]
      end.
      apply processSigs_evolved; [rewrite Hfa; exact Hrefl |].
      intros j acc2 _ Hj.
      destruct (Forall2_lookup_r _ _ _ _ _ Hsame Hj) as (acc & Hacc & Ha & Hn & Hq).
      destruct (Forall2_lookup_r _ _ _ _ _ Hall Hacc) as (a & _ & Hstore).
      exists acc. rewrite Ha, (Hwf _ _ Hstore). split_and!; assumption.
    + simpl. rewrite Hfa. exact Hrefl.
    + simpl. rewrite Hfa. exact Hrefl.
  - simpl.
    assert (Hst : sV = s0).
    { clear -Hval. unfold validateAccNumAndSequence in Hval.
      revert Hval. generalize 0%nat at 1. generalize (length accs).
      induction n as [| n IH]; intros i; simpl; [discriminate |].
      unfold bind.
      destruct (validateSigner_state ctx accs (Signatures stdTx) i s0)
        as [[x Hx] | [q Hq]].
      - rewrite Hx. destruct x; [discriminate | apply IH].
      - rewrite Hq. congruence. }
    subst sV. exact Hrefl.
Qed.

(** Whatever the handler does, returning or panicking, a store that keeps
    every account under its own address stays such a store with the same
    addresses: no account is created or removed, no account number changes,
    and a sequence is either what it was or the next one. *)
Theorem ante_store_invariant (ctx : Context) (tx : Tx Msg) (simulate : bool)
    (s : State) :
  wfStore (accounts s) ->
  let s' := stateOf (NewAnteHandler ctx tx simulate s) in
  wfStore (accounts s')
  /\ (forall a, is_Some (accounts s !! a) <-> is_Some (accounts s' !! a))
  /\ (forall a acc acc',
        accounts s !! a = Some acc -> accounts s' !! a = Some acc' ->
        GetAccountNumber acc' = GetAccountNumber acc
        /\ (GetSequence acc' = GetSequence acc
            \/ GetSequence acc' = wrap64 (GetSequence acc + 1))).
Proof.
  intros Hwf s'.
  assert (Hev : storeEvolved (accounts s) (accounts s')).
  { subst s'. pose proof (storeEvolved_refl _ Hwf) as Hrefl.
    assert (Hmet : forall stdTx,
              storeEvolved (accounts s)
                (accounts (stateOf (meteredAnte ctx stdTx simulate s)))).
    { intros stdTx. unfold meteredAnte.
      destruct (CtxGasMeter (setGasMeter simulate ctx (Gas (Fee stdTx)))) as [m |];
        [| exact Hrefl].
      pose proof (anteBody_evolved ctx (setGasMeter simulate ctx (Gas (Fee stdTx)))
                    stdTx simulate (mkState m (accounts s) (collectedFees s)) Hwf)
        as Hbody.
      destruct (anteBody _ _ _ _ _) as [[[c0 r0] a0] sB | p sB];
        [exact Hbody | destruct p; exact Hbody]. }
    destruct tx as [stdTx |]; simpl; [| exact Hrefl].
    destruct (IsCheckTx ctx && negb simulate); [| apply Hmet].
    destruct (negb (IsOK (ensureSufficientMempoolFees ctx stdTx)));
      [exact Hrefl | apply Hmet]. }
  destruct Hev as [Hev Hdom]. split_and!.
  - intros a acc' Ha. apply (Hev _ _ Ha).
  - intros a. split; [apply Hdom |].
    intros [acc' Ha]. destruct (Hev _ _ Ha) as (_ & acc & Hb & _). eexists. exact Hb.
  - intros a acc acc' Ha Ha'. destruct (Hev _ _ Ha') as (_ & acc0 & Hb & Hn & Hq).
    assert (acc0 = acc) by congruence. subst acc0. split; assumption.
Qed.

End AnteProperties.

(** * The store keys of the service keeper *)

Lemma foldl_append_sep (sep : bytes) (ss : list bytes) (acc : bytes) :
  foldl (fun result s => (result ++ s) ++ sep) acc ss
  = acc ++ concat (map (fun s => s ++ sep) ss).
Proof.
  revert acc. induction ss as [| s ss IH]; intros acc; simpl.
  - rewrite app_nil_r. reflexivity.
  - rewrite IH, <- !app_assoc. reflexivity.
Qed.

Lemma concat_sep_joinWith (sep : bytes) (s : bytes) (ss : list bytes) :
  concat (map (fun s => s ++ sep) (s :: ss)) = joinWith sep (s :: ss) ++ sep.
Proof.
  revert s. induction ss as [| t ss IH]; intros s.
  - simpl. rewrite app_nil_r. reflexivity.
  - change (concat (map (fun s => s ++ sep) (s :: t :: ss)))
      with ((s ++ sep) ++ concat (map (fun s => s ++ sep) (t :: ss))).
    rewrite IH. simpl. rewrite <- !app_assoc. reflexivity.
Qed.

(** getStringsKey joins the components with one zero byte between
    consecutive components and none at the end; no component gives the
    empty key. *)
Theorem getStringsKey_joins (ss : list bytes) :
  getStringsKey ss = joinWith emptyByte ss.
Proof.
  unfold getStringsKey. rewrite foldl_append_sep. simpl.
  destruct ss as [| s ss]; [reflexivity |].
  rewrite concat_sep_joinWith.
  set (j := joinWith emptyByte (s :: ss)).
  assert (Hlen : length (j ++ emptyByte) = S (length j)).
  { rewrite length_app. simpl. lia. }
  rewrite Hlen. simpl. rewrite Nat.sub_0_r.
  rewrite take_app_length. reflexivity.
Qed.

Lemma split_at_first_zero (s t a b : bytes) :
  x00 ∉ s -> x00 ∉ t -> s ++ x00 :: a = t ++ x00 :: b -> s = t /\ a = b.
Proof.
  revert t. induction s as [| c s IH]; intros t Hs Ht Heq.
  - destruct t as [| d t]; simpl in Heq.
    + injection Heq as <-. split; reflexivity.
    + injection Heq as <- _. exfalso. apply Ht. left.
  - destruct t as [| d t]; simpl in Heq.
    + injection Heq as -> _. exfalso. apply Hs. left.
    + injection Heq as <- Heq.
      destruct (IH t) as [-> ->]; try assumption.
      * intros Hin. apply Hs. right. exact Hin.
      * intros Hin. apply Ht. right. exact Hin.
      * split; reflexivity.
Qed.

Lemma joinWith_zero_inj (ss ts : list bytes) :
  length ss = length ts ->
  Forall (fun s => x00 ∉ s) ss -> Forall (fun s => x00 ∉ s) ts ->
  joinWith emptyByte ss = joinWith emptyByte ts -> ss = ts.
Proof.
  revert ts. induction ss as [| s ss IH]; intros ts Hlen Hss Hts Heq.
  - destruct ts; [reflexivity | discriminate].
  - destruct ts as [| t ts]; [discriminate |].
    apply Forall_cons_1 in Hss as [Hs Hss]. apply Forall_cons_1 in Hts as [Ht Hts].
    simpl in Hlen. injection Hlen as Hlen.
    destruct ss as [| s' ss]; destruct ts as [| t' ts]; try discriminate.
    + simpl in Heq. congruence.
    + change (s ++ x00 :: joinWith emptyByte (s' :: ss)
              = t ++ x00 :: joinWith emptyByte (t' :: ts)) in Heq.
      destruct (split_at_first_zero _ _ _ _ Hs Ht Heq) as [-> Hrest].
      f_equal. apply IH; assumption.
Qed.

(** Two lists of as many components, none with a zero byte in it, have the
    same key only when they are the same list. *)
Theorem getStringsKey_injective (ss ts : list bytes) :
  length ss = length ts ->
  Forall (fun s => x00 ∉ s) ss -> Forall (fun s => x00 ∉ s) ts ->
  getStringsKey ss = getStringsKey ts -> ss = ts.
Proof.
  rewrite !getStringsKey_joins. apply joinWith_zero_inj.
Qed.

Lemma bytesOf_inj (s t : string) : bytesOf s = bytesOf t -> s = t.
Proof.
  unfold bytesOf. intros H. apply (f_equal String.string_of_list_byte) in H.
  rewrite !String.string_of_list_byte_of_string in H. exact H.
Qed.

Lemma byteOfZ_value (v : Z) : Z.of_N (Byte.to_N (byteOfZ v)) = v mod 256.
Proof.
  unfold byteOfZ.
  assert (Hr : 0 <= v mod 256 < 256) by (apply Z.mod_pos_bound; lia).
  destruct (Byte.of_N (Z.to_N (v mod 256))) as [b |] eqn:Hb.
  - apply Byte.to_of_N in Hb. simpl. rewrite Hb. lia.
  - apply Byte.of_N_None_iff in Hb. lia.
Qed.

Lemma fromBigEndian_acc (bz : bytes) (acc : Z) :
  foldl (fun a b => a * 256 + Z.of_N (Byte.to_N b)) acc bz
  = acc * 256 ^ Z.of_nat (length bz) + fromBigEndian bz.
Proof.
  unfold fromBigEndian. revert acc. induction bz as [| b bz IH]; intros acc.
  - simpl. lia.
  - simpl foldl. rewrite IH, (IH (0 * 256 + _)).
    rewrite length_cons, Nat2Z.inj_succ, Z.pow_succ_r by lia. ring.
Qed.

Lemma length_bigEndian (n : nat) (v : Z) : length (bigEndian n v) = n.
Proof. induction n as [| n IH]; simpl; [reflexivity | rewrite IH; reflexivity]. Qed.

(** Reading back what was written most significant byte first gives the
    number again, reduced to the width written. *)
Lemma fromBigEndian_bigEndian (n : nat) (v : Z) :
  fromBigEndian (bigEndian n v) = v mod 256 ^ Z.of_nat n.
Proof.
  induction n as [| n IH].
  - simpl. rewrite Z.mod_1_r. reflexivity.
  - simpl bigEndian. unfold fromBigEndian. simpl foldl.
    rewrite fromBigEndian_acc, IH, length_bigEndian, byteOfZ_value.
    rewrite Z.shiftr_div_pow2 by lia.
    rewrite Nat2Z.inj_succ, Z.pow_succ_r by lia.
    replace (2 ^ (8 * Z.of_nat n)) with (256 ^ Z.of_nat n)
      by (rewrite Z.pow_mul_r by lia; reflexivity).
    assert (Hp : 0 < 256 ^ Z.of_nat n) by (apply Z.pow_pos_nonneg; lia).
    rewrite (Z.mul_comm 256), Z.rem_mul_r by lia. lia.
Qed.

Section KeysProperties.

Context {E : Collaborators}.

(** The bindings subspace of a service is a prefix of every binding key of
    that service; and when no zero byte occurs in the two service names, it
    is a prefix of a binding key of that service only. *)
Theorem bindings_subspace_prefix (serviceName other : string) (provider : AccAddress) :
  GetBindingsSubspace serviceName `prefix_of` GetServiceBindingKey serviceName provider
  /\ (x00 ∉ bytesOf serviceName -> x00 ∉ bytesOf other ->
      GetBindingsSubspace serviceName `prefix_of` GetServiceBindingKey other provider ->
      serviceName = other).
Proof.
  unfold GetBindingsSubspace, GetServiceBindingKey.
  rewrite !getStringsKey_joins. simpl. split.
  - exists (providerString provider). unfold emptyByte.
    simpl. rewrite <- app_assoc. reflexivity.
  - intros Hs Ho [k Hk]. unfold emptyByte in Hk. simpl in Hk. injection Hk as Hk.
    rewrite <- app_assoc in Hk. simpl in Hk.
    symmetry in Hk. apply split_at_first_zero in Hk as [Hn _]; try assumption.
    apply bytesOf_inj, Hn.
Qed.

(** The sub-key of the active requests of a binding is a prefix of the key
    of every active request of that binding. *)
Theorem active_request_subspace_prefix (defChainId serviceName bindChainId : string)
    (provider : AccAddress) (height counter : Z) :
  GetSubActiveRequestKey defChainId serviceName bindChainId provider
    `prefix_of`
  GetActiveRequestKey defChainId serviceName bindChainId provider height counter.
Proof.
  unfold GetSubActiveRequestKey, GetActiveRequestKey.
  rewrite !getStringsKey_joins. simpl.
  exists (runeString height ++ x00 :: runeString counter).
  unfold emptyByte. simpl. f_equal.
  repeat (rewrite <- app_assoc; simpl). reflexivity.
Qed.

(** The request keys and the request-context keys share the prefix 0x03:
    every request key is the request-context key of some id, and a
    request-context key is a request key as soon as its id is the joined
    components of a request. *)
Theorem request_key_is_request_context_key (defChainId serviceName bindChainId : string)
    (provider : AccAddress) (height counter : Z) :
  GetRequestKey defChainId serviceName bindChainId provider height counter
  = GetRequestContextKey
      (joinWith emptyByte
         [bytesOf defChainId; bytesOf serviceName; bytesOf bindChainId;
          providerString provider; runeString height; runeString counter]).
Proof.
  unfold GetRequestKey, GetRequestContextKey.
  rewrite getStringsKey_joins. reflexivity.
Qed.

(** An integer that is no valid code point is written as U+FFFD, so the
    request keys of two heights above U+10FFFF, or of two negative counters,
    are the same key. *)
Theorem request_key_collides_out_of_range (defChainId serviceName bindChainId : string)
    (provider : AccAddress) (h1 h2 c1 c2 : Z) :
  (1114111 < h1 \/ h1 < 0) -> (1114111 < h2 \/ h2 < 0) ->
  (1114111 < c1 \/ c1 < 0) -> (1114111 < c2 \/ c2 < 0) ->
  GetRequestKey defChainId serviceName bindChainId provider h1 c1
  = GetRequestKey defChainId serviceName bindChainId provider h2 c2
  /\ GetActiveRequestKey defChainId serviceName bindChainId provider h1 c1
     = GetActiveRequestKey defChainId serviceName bindChainId provider h2 c2.
Proof.
  intros Hh1 Hh2 Hc1 Hc2.
  assert (Hrune : forall n, (1114111 < n \/ n < 0) -> runeString n = encodeRune 65533).
  { intros n Hn. unfold runeString, validRune.
    destruct (Z.leb_spec 0 n), (Z.leb_spec n 1114111); simpl; try reflexivity; lia. }
  unfold GetRequestKey, GetActiveRequestKey.
  rewrite !(Hrune _ Hh1), !(Hrune _ Hh2), !(Hrune _ Hc1), !(Hrune _ Hc2).
  split; reflexivity.
Qed.

(** The expiration index key has 19 bytes: the prefix 0x05, then the
    expiration height, the request height and the counter, each read back
    by the big-endian decoder as the unsigned value that was written. *)
Theorem expiration_index_key_round_trip (eHeight rHeight counter : Z) :
  let key := GetRequestsByExpirationIndexKey eHeight rHeight counter in
  length key = 19%nat
  /\ key !! 0%nat = Some x05
  /\ fromBigEndian (take 8 (drop 1 key)) = wrap64 eHeight
  /\ fromBigEndian (take 8 (drop 9 key)) = wrap64 rHeight
  /\ fromBigEndian (drop 17 key) = wrap16 counter.
Proof.
  assert (H64 : forall v, fromBigEndian (bigEndian 8 (wrap64 v)) = wrap64 v).
  { intros v. rewrite fromBigEndian_bigEndian. unfold wrap64, uint64_modulus.
    change (256 ^ Z.of_nat 8) with (2 ^ 64). apply Z.mod_mod. lia. }
  assert (H16 : forall v, fromBigEndian (bigEndian 2 (wrap16 v)) = wrap16 v).
  { intros v. rewrite fromBigEndian_bigEndian. unfold wrap16.
    change (256 ^ Z.of_nat 2) with (2 ^ 16). apply Z.mod_mod. lia. }
  unfold GetRequestsByExpirationIndexKey. cbv zeta.
  split; [rewrite !length_app, !length_bigEndian; reflexivity |].
  split; [reflexivity |].
  change ([default x00 (requestsByExpirationIndexKey !! 0%nat)] ++
          bigEndian 8 (wrap64 eHeight) ++ bigEndian 8 (wrap64 rHeight)
          ++ bigEndian 2 (wrap16 counter))
    with (x05 :: (bigEndian 8 (wrap64 eHeight) ++ bigEndian 8 (wrap64 rHeight)
                  ++ bigEndian 2 (wrap16 counter))).
  split; [| split].
  - change (drop 1 (x05 :: ?l)) with l.
    rewrite take_app_length' by (rewrite length_bigEndian; reflexivity). apply H64.
  - change (drop 9 (x05 :: ?l)) with (drop 8 l).
    rewrite drop_app_length' by (rewrite length_bigEndian; reflexivity).
    rewrite take_app_length' by (rewrite length_bigEndian; reflexivity). apply H64.
  - change (drop 17 (x05 :: ?l)) with (drop 16 l).
    rewrite app_assoc.
    rewrite drop_app_length'
      by (rewrite length_app, !length_bigEndian; reflexivity).
    apply H16.
Qed.

(** The expiration prefix of a height is a prefix of the index key of every
    request that expires at that height, and of no request that expires at
    another height. *)
Theorem expiration_prefix_selects_height (height eHeight rHeight counter : Z) :
  GetRequestsByExpirationPrefix height
    `prefix_of` GetRequestsByExpirationIndexKey eHeight rHeight counter
  <-> wrap64 height = wrap64 eHeight.
Proof.
  unfold GetRequestsByExpirationPrefix, GetRequestsByExpirationIndexKey.
  split.
  - intros [k Hk]. rewrite <- app_assoc in Hk. apply app_inv_head in Hk.
    apply app_inj_1 in Hk as [Hk _]; [| rewrite !length_bigEndian; reflexivity].
    apply (f_equal fromBigEndian) in Hk.
    rewrite !fromBigEndian_bigEndian in Hk.
    unfold wrap64, uint64_modulus in *.
    change (256 ^ Z.of_nat 8) with (2 ^ 64) in Hk.
    rewrite !Z.mod_mod in Hk by lia. congruence.
  - intros ->. exists (bigEndian 8 (wrap64 rHeight) ++ bigEndian 2 (wrap16 counter)).
    rewrite <- app_assoc. reflexivity.
Qed.

End KeysProperties.

Lemma byteOfZ_mod (x y : Z) : x mod 256 = y mod 256 -> byteOfZ x = byteOfZ y.
Proof. unfold byteOfZ. intros ->. reflexivity. Qed.

Lemma lexLess_app_same (p x y : bytes) : lexLess x y -> lexLess (p ++ x) (p ++ y).
Proof.
  intros H. induction p as [| a p IH]; [exact H |].
  simpl. apply lexLess_tail, IH.
Qed.

Lemma lexLess_app_l (l k x y : bytes) :
  lexLess l k -> length l = length k -> lexLess (l ++ x) (k ++ y).
Proof.
  induction 1 as [b k | a b l k Hab | a l k _ IH]; intros Hlen.
  - discriminate Hlen.
  - simpl. apply lexLess_head, Hab.
  - simpl. apply lexLess_tail, IH. simpl in Hlen. congruence.
Qed.

(** Of two numbers the one with the smaller low [n] bytes is written as the
    smaller byte sequence. *)
Lemma bigEndian_order (n : nat) :
  forall a b, a mod 256 ^ Z.of_nat n < b mod 256 ^ Z.of_nat n ->
    lexLess (bigEndian n a) (bigEndian n b).
Proof.
  induction n as [| n IH]; intros a b Hlt.
  - simpl in Hlt. rewrite !Z.mod_1_r in Hlt. lia.
  - rewrite Nat2Z.inj_succ, Z.pow_succ_r in Hlt by lia.
    assert (Hp : 0 < 256 ^ Z.of_nat n) by (apply Z.pow_pos_nonneg; lia).
    rewrite !(Z.mul_comm 256), !Z.rem_mul_r in Hlt by lia.
    pose proof (Z.mod_pos_bound a (256 ^ Z.of_nat n) Hp) as Hra.
    pose proof (Z.mod_pos_bound b (256 ^ Z.of_nat n) Hp) as Hrb.
    pose proof (Z.mod_pos_bound (a / 256 ^ Z.of_nat n) 256 ltac:(lia)) as Hda.
    pose proof (Z.mod_pos_bound (b / 256 ^ Z.of_nat n) 256 ltac:(lia)) as Hdb.
    assert (Hshift : forall v, Z.shiftr v (8 * Z.of_nat n) = v / 256 ^ Z.of_nat n).
    { intros v. rewrite Z.shiftr_div_pow2 by lia.
      rewrite Z.pow_mul_r by lia. reflexivity. }
    simpl bigEndian. rewrite !Hshift.
    destruct (Z.lt_trichotomy ((a / 256 ^ Z.of_nat n) mod 256)
                              ((b / 256 ^ Z.of_nat n) mod 256)) as [Hd | [Hd | Hd]].
    + apply lexLess_head.
      pose proof (byteOfZ_value (a / 256 ^ Z.of_nat n)).
      pose proof (byteOfZ_value (b / 256 ^ Z.of_nat n)). lia.
    + rewrite (byteOfZ_mod _ _ Hd). apply lexLess_tail, IH. nia.
    + exfalso. nia.
Qed.

Section KeyOrder.

Context {E : Collaborators}.

(** The expiration index keys are ordered as their fields are: by the
    expiration height, then by the request height, then by the counter,
    each as the unsigned value written into the key. *)
Theorem expiration_index_key_order (e1 r1 c1 e2 r2 c2 : Z) :
  wrap64 e1 < wrap64 e2
  \/ (wrap64 e1 = wrap64 e2
      /\ (wrap64 r1 < wrap64 r2
          \/ (wrap64 r1 = wrap64 r2 /\ wrap16 c1 < wrap16 c2))) ->
  lexLess (GetRequestsByExpirationIndexKey e1 r1 c1)
          (GetRequestsByExpirationIndexKey e2 r2 c2).
Proof.
  assert (H64 : forall a b, wrap64 a < wrap64 b ->
            lexLess (bigEndian 8 (wrap64 a)) (bigEndian 8 (wrap64 b))).
  { intros a b Hlt. apply bigEndian_order. unfold wrap64, uint64_modulus in *.
    change (256 ^ Z.of_nat 8) with (2 ^ 64). rewrite !Z.mod_mod by lia. exact Hlt. }
  assert (H16 : forall a b, wrap16 a < wrap16 b ->
            lexLess (bigEndian 2 (wrap16 a)) (bigEndian 2 (wrap16 b))).
  { intros a b Hlt. apply bigEndian_order. unfold wrap16 in *.
    change (256 ^ Z.of_nat 2) with (2 ^ 16). rewrite !Z.mod_mod by lia. exact Hlt. }
  unfold GetRequestsByExpirationIndexKey. intros Hord.
  apply lexLess_app_same.
  destruct Hord as [He | [He Hord]].
  - apply lexLess_app_l; [apply H64, He | rewrite !length_bigEndian; reflexivity].
  - rewrite He. apply lexLess_app_same.
    destruct Hord as [Hr | [Hr Hc]].
    + apply lexLess_app_l; [apply H64, Hr | rewrite !length_bigEndian; reflexivity].
    + rewrite Hr. apply lexLess_app_same, H16, Hc.
Qed.

End KeyOrder.

(** * The properties at work on the example data *)

#[local] Existing Instance Demo.collaborators.

(** The spec's scenario of account B: the claimed sequence 5 against the
    stored sequence 4 is rejected. *)
Lemma validateAccNumAndSequence_account_B :
  (length [Example.accountB] <= length [Example.sigB])%nat
  /\ validateAccNumAndSequence Example.ctx [Example.accountB] [Example.sigB] tt
     = Ret (ErrInvalidSequence "Invalid sequence. Got 5, expected 4") tt.
Proof.
  assert (Hlen : (length [Example.accountB] <= length [Example.sigB])%nat)
    by (simpl; lia).
  split; [exact Hlen |].
  refine (proj1 (proj2 (validateAccNumAndSequence_first_violation
                          Example.ctx [Example.accountB] [Example.sigB] tt Hlen)
                       0%nat Example.accountB Example.sigB eq_refl eq_refl _ _)).
  - intros j acc' sig' Hj. lia.
  - intros [_ Hseq]. discriminate Hseq.
Defined.

(** The transaction of account A with a gas limit of 50 runs out of gas in
    the signature-verification charge, and the one without a signature
    entry panics with an index error: the first is returned as an
    out-of-gas result, the second leaves the handler as a panic. *)
Lemma ante_out_of_gas_and_index_panic :
  NewAnteHandler Example.ctx (TxStd (Example.txA 50)) false Example.state
  = Ret (WithGasMeter (setGasMeter false Example.ctx 50)
                      (mkGasMeter (WithBase 50 gasBase gasShift) 100),
         mkResult CodeOutOfGas "out of gas in location: ante verify: secp256k1" 50 100,
         true) Example.outOfGasState
  /\ NewAnteHandler Example.ctx (TxStd Example.txUnsigned) false Example.state
     = Panic (RuntimeError "index out of range")
             (mkState (NewGasMeterWithBase 50000 gasBase gasShift)
                      (accounts Example.state) (collectedFees Example.state)).
Proof.
  split.
  - refine (proj1 (ante_recovers_only_out_of_gas Example.ctx (Example.txA 50) false
                     Example.state (NewGasMeterWithBase 50 gasBase gasShift)
                     eq_refl _)
                  "ante verify: secp256k1" Example.outOfGasState _).
    + intros H. discriminate H.
    + vm_compute. reflexivity.
  - refine (proj1 (proj2 (ante_recovers_only_out_of_gas Example.ctx Example.txUnsigned
                            false Example.state
                            (NewGasMeterWithBase 50000 gasBase gasShift) eq_refl _))
                  (RuntimeError "index out of range") _ _ _).
    + intros H. discriminate H.
    + vm_compute. reflexivity.
    + intros d H. discriminate H.
Defined.

(** A count mismatch is not rejected: bitmap 101 with one partial signature
    is not turned into a rejection, the cost lookup panics with an index
    error after charging the first member, and the panic leaves the
    handler; bitmap 101 with three partial signatures is accepted by the
    cost lookup. *)
Lemma multisig_count_mismatch_not_rejected :
  (countSet [true; false; true] = 2 /\ length [[xaa]] = 1)%nat
  /\ unmarshalMultisignature Example.encoded101_1 = Some (Example.bitmap101 [[xaa]])
  /\ consumeMultisignatureVerificationGas (Example.bitmap101 [[xaa]])
       Example.memberKeys NewInfiniteGasMeter
     = Panic (RuntimeError "index out of range") (mkGasMeter Infinite 100)
  /\ consumeSignatureVerificationGas Example.encoded101_1 Example.keyM
       NewInfiniteGasMeter
     = Panic (RuntimeError "index out of range") (mkGasMeter Infinite 100)
  /\ NewAnteHandler Example.ctx (TxStd (Example.txM Example.encoded101_1)) false
       Example.stateM
     = Panic (RuntimeError "index out of range")
             (mkState (mkGasMeter (WithBase 50000 gasBase gasShift) 100)
                      (accounts Example.stateM) (collectedFees Example.stateM))
  /\ consumeSignatureVerificationGas Example.encoded101_3 Example.keyM
       NewInfiniteGasMeter
     = Ret okResult (mkGasMeter Infinite 200).
Proof. vm_compute. repeat split. Qed.

(** Bitmap 101 with two partial signatures charges the cost of member 0
    plus the cost of member 2; a multisig member included with an empty
    partial signature makes the computation panic. *)
Lemma multisig_gas_bitmap_101 :
  consumeMultisignatureVerificationGas (Example.bitmap101 [[xaa]; [xbb]])
    Example.memberKeys NewInfiniteGasMeter
  = Ret tt (mkGasMeter Infinite (secp256k1VerifyCost + secp256k1VerifyCost))
  /\ exists p m',
       consumeMultisignatureVerificationGas Scenario.malformedNested
         Scenario.nestedMembers NewInfiniteGasMeter = Panic p m'.
Proof.
  split.
  - refine (proj2 (proj1 (multisig_gas_sums_included_members
                            (Example.bitmap101 [[xaa]; [xbb]]) Example.memberKeys _ _)
                         [secp256k1VerifyCost; secp256k1VerifyCost] _)
                  NewInfiniteGasMeter eq_refl).
    + simpl. lia.
    + intros [| [| [| i]]] H; simpl in *; try discriminate H; lia.
    + repeat constructor.
  - refine (proj1 (proj2 (multisig_gas_sums_included_members
                            Scenario.malformedNested Scenario.nestedMembers _ _))
                  _ NewInfiniteGasMeter).
    + simpl. lia.
    + intros [| [| i]] H; simpl in *; try discriminate H; lia.
    + apply Exists_cons_hd. reflexivity.
Defined.

(** Simulate mode does not succeed for every resolved key: processSig
    rejects a stored key of an unrecognized type, and with a stored
    multisig key its outcome depends on the signature bytes, which the cost
    lookup decodes. *)
Lemma simulate_does_not_always_succeed :
  processSig Example.accountOther (mkStdSignature None [] 9 0) [] true
    NewInfiniteGasMeter
  = Ret (Example.accountOther, None,
         ErrInvalidPubKey "unrecognized public key type: sr25519.pubkeysr25519")
        NewInfiniteGasMeter
  /\ processSig Example.accountM (Example.sigM Example.encoded101_1) [] true
       NewInfiniteGasMeter
     = Panic (RuntimeError "index out of range") (mkGasMeter Infinite 100)
  /\ processSig Example.accountM (Example.sigM []) [] true NewInfiniteGasMeter
     = Panic (ErrorValue "UnmarshalBinaryBare") NewInfiniteGasMeter
  /\ processSig Example.accountM (Example.sigM Example.encoded101_2) [] true
       NewInfiniteGasMeter
     = Ret (bumpSequence Example.accountM Example.keyM,
            Some (bumpSequence Example.accountM Example.keyM), okResult)
           (mkGasMeter Infinite 200).
Proof. vm_compute. repeat split. Qed.


(** Account A pays the fee of 10 out of its balance of 100; account B,
    with no coins, cannot. *)
Lemma deductFees_accounts_A_and_B :
  (exists acc' s',
     deductFeeStage (Example.txA 50000) [Example.accountA] Example.state
     = Ret (inl [acc']) s'
     /\ AmountOf (GetCoins acc') "iris" = 90
     /\ AmountOf (collectedFees s') "iris" = 10
     /\ accounts s' = accounts Example.state)
  /\ (exists res,
        deductFees Example.accountB (Example.fee 50000) = (Example.accountB, None, res)
        /\ Code res = CodeInsufficientFunds).
Proof.
  pose proof (deductFees_first_signer_only (E := Demo.collaborators)
                (Example.txA 50000) Example.state) as (_ & Hlow & Hpay).
  split.
  - destruct (Hpay Example.accountA) as (acc' & _ & Hamt & _ & _ & _ & _ & _ & Hstage).
    { intros d. unfold AmountOf. simpl.
      destruct (decide (d = "iris")) as [-> | Hd].
      - vm_compute. discriminate.
      - rewrite !lookup_singleton_ne by congruence. simpl. lia. }
    destruct (Hstage [] eq_refl) as (s' & Hrun & Hacc & _ & Hcol).
    exists acc', s'. split; [exact Hrun |].
    split; [rewrite Hamt; reflexivity |].
    split; [rewrite Hcol; reflexivity | exact Hacc].
  - destruct (Hlow Example.accountB) as (res & Hded & Hcode & _).
    { exists "iris". vm_compute. reflexivity. }
    exists res. split; [exact Hded | exact Hcode].
Defined.

(** The meters installed for the example context. *)
Lemma setGasMeter_example :
  setGasMeter true Example.ctx 50000 = WithGasMeter Example.ctx NewInfiniteGasMeter
  /\ setGasMeter false Example.ctx 50000
     = WithGasMeter Example.ctx (NewGasMeterWithBase 50000 (102 # 100) 285).
Proof.
  pose proof (setGasMeter_construction (E := Demo.collaborators)
                true Example.ctx 50000) as [Hsim _].
  pose proof (setGasMeter_construction (E := Demo.collaborators)
                false Example.ctx 50000) as [_ Hmetered].
  split.
  - exact (proj1 (Hsim (or_introl eq_refl))).
  - refine (proj1 (Hmetered (conj eq_refl _))). discriminate.
Defined.

(** Account B has no stored key: the key of the signature entry is adopted
    when its address is B's address and refused otherwise. *)
Lemma processPubKey_account_B :
  processPubKey Example.accountB
    (mkStdSignature (Some (PubKeySecp256k1 [x02])) [] 8 4) false
  = inl (PubKeySecp256k1 [x02])
  /\ processPubKey Example.accountB
       (mkStdSignature (Some Example.keyA) [] 8 4) false
     = inr (ErrInvalidPubKey
              ("PubKey does not match Signer address "
                 +:+ addrString (GetAddress Example.accountB))).
Proof.
  split.
  - exact (proj1 (proj2 (processPubKey_not_simulating (E := Demo.collaborators)
                           Example.accountB
                           (mkStdSignature (Some (PubKeySecp256k1 [x02])) [] 8 4)))
                 (PubKeySecp256k1 [x02]) eq_refl eq_refl eq_refl).
  - refine (proj1 (proj2 (proj2 (processPubKey_not_simulating (E := Demo.collaborators)
                                   Example.accountB
                                   (mkStdSignature (Some Example.keyA) [] 8 4))))
                  Example.keyA eq_refl eq_refl _).
    discriminate.
Defined.

(** With a floor of 20 the fee of 10 is refused in CheckTx mode. *)
Lemma mempool_floor_example :
  exists msg,
    NewAnteHandler Example.checkCtx (TxStd (Example.txA 50000)) false Example.state
    = Ret (zeroContext, ErrInsufficientFee msg, true) Example.state.
Proof.
  pose proof (mempool_admission_check (E := Demo.collaborators) Example.checkCtx
                (Example.txA 50000) false Example.state) as [_ Hcheck].
  destruct (Hcheck eq_refl eq_refl) as (_ & Hfloor & _).
  eexists. apply Hfloor.
  - reflexivity.
  - reflexivity.
  - exists "iris". vm_compute. reflexivity.
Defined.

(** The nested multisig key charges 100 + 100 for the included members of
    its multisig member, nothing for the unrecognized member and 59 for
    the ed25519 member, and its lookup returns OK. *)
Lemma nested_multisig_gas :
  verificationCost Example.nestedKey Example.encodedNested = Some 259
  /\ consumeSignatureVerificationGas Example.encodedNested Example.nestedKey
       NewInfiniteGasMeter
     = Ret okResult (mkGasMeter Infinite 259).
Proof.
  assert (Hcost : verificationCost Example.nestedKey Example.encodedNested = Some 259)
    by (vm_compute; reflexivity).
  split; [exact Hcost |].
  pose proof (multisig_gas_is_recursive (E := Demo.collaborators) 2
                [Example.keyM; PubKeyOther "sr25519.PubKeySr25519" [x03];
                 PubKeyEd25519 [x0d]] Example.encodedNested) as (_ & _ & Hgas & _).
  destruct (Hgas 259 NewInfiniteGasMeter Hcost) as [Hret | [Hkind _]].
  - exact Hret.
  - exfalso. apply Hkind. reflexivity.
Defined.

(** Simulating for account B, which has no stored key, charges the cost of
    the placeholder key. *)
Lemma simulate_account_B :
  processSig Example.accountB Example.sigB [] true NewInfiniteGasMeter
  = Ret (bumpSequence Example.accountB dummySecp256k1Pubkey,
         Some (bumpSequence Example.accountB dummySecp256k1Pubkey), okResult)
        (mkGasMeter Infinite 100).
Proof.
  pose proof (simulate_skips_signature_verification (E := Demo.collaborators)
                Example.accountB Example.sigB [] NewInfiniteGasMeter)
    as (_ & Hplaceholder & _).
  exact (proj2 (Hplaceholder eq_refl) eq_refl).
Defined.

(** Two lists of two components that differ in the second have different
    keys. *)
Lemma getStringsKey_distinct_components :
  getStringsKey [[x61]; [x62]] <> getStringsKey [[x61]; [x63]].
Proof.
  intros H.
  apply (getStringsKey_injective [[x61]; [x62]] [[x61]; [x63]] eq_refl) in H.
  - discriminate H.
  - repeat (constructor; [apply (bool_decide_unpack _); vm_compute; exact I |]).
    constructor.
  - repeat (constructor; [apply (bool_decide_unpack _); vm_compute; exact I |]).
    constructor.
Defined.

(** The bindings of the service "ab" are outside the subspace of the
    service "a". *)
Lemma bindings_subspace_of_other_service :
  ~ GetBindingsSubspace "a" `prefix_of` GetServiceBindingKey "ab" Example.addrA.
Proof.
  intros H.
  apply (proj2 (bindings_subspace_prefix (E := Demo.collaborators)
                  "a" "ab" Example.addrA)) in H.
  - discriminate H.
  - apply (bool_decide_unpack _). vm_compute. exact I.
  - apply (bool_decide_unpack _). vm_compute. exact I.
Defined.

(** The heights 2000000 and 3000000 give one and the same request key. *)
Lemma request_keys_of_large_heights :
  GetRequestKey "c" "svc" "c" Example.addrA 2000000 (-1)
  = GetRequestKey "c" "svc" "c" Example.addrA 3000000 (-2).
Proof.
  refine (proj1 (request_key_collides_out_of_range (E := Demo.collaborators)
                   "c" "svc" "c" Example.addrA 2000000 3000000 (-1) (-2) _ _ _ _));
    lia.
Defined.

(** Account A exists and the address 0x02 does not: the accounts of A alone
    are found, those of A and 0x02 are not. *)
Lemma getSignerAccs_example :
  getSignerAccs [Example.addrA; Scenario.addrB] Example.state
  = Ret ([], ErrUnknownAddress (addrString Scenario.addrB)) Example.state.
Proof.
  refine (proj2 (getSignerAccs_first_missing (E := Demo.collaborators)
                   [Example.addrA; Scenario.addrB] Example.state)
                1%nat Scenario.addrB eq_refl eq_refl _).
  intros [| j] a' Hj Ha'; [| lia].
  injection Ha' as <-. eexists. reflexivity.
Defined.

(** Account B without a signature entry: the validation panics. *)
Lemma validateAccNumAndSequence_no_entry :
  validateAccNumAndSequence Example.ctx [Example.accountB] [] tt
  = Panic (RuntimeError "index out of range") tt.
Proof.
  apply validateAccNumAndSequence_missing_signature.
  - simpl. lia.
  - intros j acc sig _ Hsig. discriminate Hsig.
Defined.

(** The signature of account A is processed: the account keeps its key and
    its coins and moves to sequence 4, and the signature verifies. *)
Lemma processSig_account_A :
  processSig Example.accountA (Example.sigA 50000) Scenario.signBytesA false
    NewInfiniteGasMeter
  = Ret (bumpSequence Example.accountA Example.keyA,
         Some (bumpSequence Example.accountA Example.keyA), okResult)
        (mkGasMeter Infinite 100)
  /\ GetCoins (bumpSequence Example.accountA Example.keyA) = GetCoins Example.accountA
  /\ GetSequence (bumpSequence Example.accountA Example.keyA) = 4.
Proof.
  assert (Hrun : processSig Example.accountA (Example.sigA 50000) Scenario.signBytesA
                   false NewInfiniteGasMeter
                 = Ret (bumpSequence Example.accountA Example.keyA,
                        Some (bumpSequence Example.accountA Example.keyA), okResult)
                       (mkGasMeter Infinite 100)) by (vm_compute; reflexivity).
  split; [exact Hrun |].
  destruct (processSig_account_effects (E := Demo.collaborators) _ _ _ _ _ _ _ _ _ Hrun)
    as (_ & Hcoins & _ & _ & Hok & _).
  split; [exact Hcoins |].
  destruct (Hok eq_refl) as (_ & Hseq & _). rewrite Hseq. reflexivity.
Defined.

(** The signature of account A verifies under A's stored key. *)
Lemma processSig_account_A_verified :
  exists pk,
    GetPubKey (bumpSequence Example.accountA Example.keyA) = Some pk
    /\ VerifyBytes pk Scenario.signBytesA (Signature (Example.sigA 50000)) = true
    /\ (GetPubKey Example.accountA = Some pk
        \/ (GetPubKey Example.accountA = None
            /\ SigPubKey (Example.sigA 50000) = Some pk
            /\ Address pk = GetAddress Example.accountA)).
Proof.
  refine (processSig_success_verified (E := Demo.collaborators) Example.accountA
            (Example.sigA 50000) Scenario.signBytesA NewInfiniteGasMeter
            (mkGasMeter Infinite 100) _ (Some (bumpSequence Example.accountA Example.keyA))
            okResult _ eq_refl).
  vm_compute. reflexivity.
Defined.

(** The transaction of account A with the gas limit 50000 is let through. *)
Lemma firstRun_admitted :
  Example.firstRun
  = Ret (Example.firstContext, mkResult CodeOK "" 50000 0, false) Example.afterFirstRun.
Proof. vm_compute. reflexivity. Qed.

(** The transaction of account A is let through: one signature entry for
    one signer, and the fee of 10 is all that was collected. *)
Lemma ante_success_account_A :
  length (Signatures (Example.txA 50000)) = length (GetSigners (Example.txA 50000))
  /\ CtxGasMeter Example.firstContext = Some (meter Example.afterFirstRun)
  /\ length (Signers Example.firstContext) = 1%nat
  /\ AmountOf (collectedFees Example.afterFirstRun) "iris" = 10.
Proof.
  destruct (ante_success_outcome (E := Demo.collaborators) Example.ctx
              (Example.txA 50000) false Example.state Example.afterFirstRun
              Example.firstContext (mkResult CodeOK "" 50000 0) firstRun_admitted)
    as (Hlen & _ & Hmeter & Hsigners & Hfees).
  split; [exact Hlen |]. split; [exact Hmeter |]. split; [exact Hsigners |].
  rewrite Hfees. reflexivity.
Defined.

(** The transaction of account A that was let through carries A's verified
    signature over A's account number and sequence. *)
Lemma ante_authenticated_account_A :
  exists acc pk,
    accounts Example.state !! Example.addrA = Some acc
    /\ conforms Example.ctx acc (Example.sigA 50000)
    /\ (GetPubKey acc = Some pk
        \/ (GetPubKey acc = None /\ SigPubKey (Example.sigA 50000) = Some pk
            /\ Address pk = GetAddress acc))
    /\ VerifyBytes pk Scenario.signBytesA (Signature (Example.sigA 50000)) = true.
Proof.
  exact (ante_success_is_authenticated (E := Demo.collaborators) Example.ctx
           (Example.txA 50000) Example.state Example.afterFirstRun
           Example.firstContext (mkResult CodeOK "" 50000 0) firstRun_admitted
           0%nat Example.addrA (Example.sigA 50000) eq_refl eq_refl).
Defined.


(** After the transaction of account A the store still keeps every account
    under its own address, and A's account number is what it was. *)
Lemma ante_store_invariant_account_A :
  wfStore (accounts Example.afterFirstRun)
  /\ forall acc', accounts Example.afterFirstRun !! Example.addrA = Some acc' ->
       GetAccountNumber acc' = 7.
Proof.
  assert (Hwf : wfStore (accounts Example.state)).
  { intros a acc H. unfold Example.state, accounts in H.
    apply lookup_singleton_Some in H as [<- <-]. reflexivity. }
  destruct (ante_store_invariant (E := Demo.collaborators) Example.ctx
              (TxStd (Example.txA 50000)) false Example.state Hwf)
    as (Hwf' & _ & Hnum).
  split; [exact Hwf' |].
  intros acc' Hacc'.
  exact (proj1 (Hnum Example.addrA Example.accountA acc' eq_refl Hacc')).
Defined.

(** A request that expires at height 5 comes before one that expires at
    height 7, whatever their request heights and counters. *)
Lemma expiration_index_key_order_example :
  lexLess (GetRequestsByExpirationIndexKey 5 9 1)
          (GetRequestsByExpirationIndexKey 7 0 0).
Proof.
  apply expiration_index_key_order.
  left. vm_compute. reflexivity.
Defined.
